(** * The lifecycle-event dialog of the Life App Telegram bot

    A shallow embedding of [telegram-bot/main.py]: the handlers of the
    [LifeBot] class, the way [setup_handlers] wires them into the
    conversation handler, and the three HTTP clients.  Handlers are written
    in a small state-and-exception monad; everything the bot cannot decide
    itself (whether the chat platform accepts a message, what the backend
    answers, what the clocks read) is read from an environment. *)

From Stdlib Require Import ZArith QArith String Ascii List Bool Lia.
From stdpp Require Import base option list gmap strings pretty.
Import ListNotations.

Local Open Scope string_scope.
Set Warnings "-register-all".

(** ** Python values *)

(** The values the bot handles: what [response.json()] decodes, what is kept
    in [context.user_data], and what goes into a request body.  A float is
    kept as the two things the program can observe of it: its truth value and
    its [str()]. *)
Inductive value : Type :=
  | VNone
  | VBool (b : bool)
  | VInt (z : Z)
  | VFloat (nonzero : bool) (shown : string)
  | VStr (s : string)
  | VList (items : list value)
  | VDict (fields : list (string * value)).

(** The exceptions that occur; every [except] clause of the source catches
    [Exception], so handlers never look at the class. *)
Inductive exn : Type :=
  | TelegramError
  | ClientError
  | KeyError
  | TypeError
  | AttributeError
  | IndexError.

(** Python truthiness, as used by [if x], [x and y], [x or y], [not x]. *)
Definition truthy (v : value) : bool :=
  match v with
  | VNone => false
  | VBool b => b
  | VInt z => negb (z =? 0)%Z
  | VFloat nonzero _ => nonzero
  | VStr s => negb (String.eqb s "")
  | VList items => match items with [] => false | _ => true end
  | VDict fields => match fields with [] => false | _ => true end
  end.

(** [v == "s"] for a string literal [s]. *)
Definition py_eq_str (v : value) (s : string) : bool :=
  match v with
  | VStr t => String.eqb t s
  | _ => false
  end.

(** Lookup in a decoded JSON object; the decoder keeps one entry per key. *)
Fixpoint dict_lookup (k : string) (fields : list (string * value)) : option value :=
  match fields with
  | [] => None
  | (k', v) :: rest => if String.eqb k' k then Some v else dict_lookup k rest
  end.

(** [str.join]. *)
Fixpoint join (sep : string) (parts : list string) : string :=
  match parts with
  | [] => ""
  | [p] => p
  | p :: rest => p +:+ sep +:+ join sep rest
  end.

Definition nl : string := String (ascii_of_nat 10) "".

(** [str(v)] as an f-string field renders it.  The [repr] of a list or a dict
    is left to the runtime ([container_repr]); no template of the bot is
    meant to receive one. *)
Definition py_str (container_repr : value -> string) (v : value) : string :=
  match v with
  | VNone => "None"
  | VBool true => "True"
  | VBool false => "False"
  | VInt z => pretty z
  | VFloat _ shown => shown
  | VStr s => s
  | VList _ | VDict _ => container_repr v
  end.

(** [int(x)] of a clock reading: truncation towards zero. *)
Definition int_of_float (x : Q) : Z := Z.quot (Qnum x) (Zpos (Qden x)).

(** ** Strings as UTF-8 text: the first [n] characters, for [s[:n]] *)

Definition utf8_continuation (c : ascii) : bool :=
  let n := N_of_ascii c in (128 <=? n)%N && (n <? 192)%N.

Fixpoint utf8_take (n : nat) (s : string) : string :=
  match s with
  | EmptyString => EmptyString
  | String c rest =>
      if utf8_continuation c then String c (utf8_take n rest)
      else match n with
           | O => EmptyString
           | S n' => String c (utf8_take n' rest)
           end
  end.

(** ** [base64.b64encode] *)

Definition b64_alphabet : list ascii :=
  list_ascii_of_string
    "ABCDEFGHIJKLMNOPQRSTUVWXYZabcdefghijklmnopqrstuvwxyz0123456789+/".

Definition b64_char (n : N) : ascii :=
  nth (N.to_nat (N.land n 63)) b64_alphabet "="%char.

Fixpoint b64encode (bytes : list Byte.byte) : string :=
  match bytes with
  | [] => ""
  | [a] =>
      let n := N.shiftl (Byte.to_N a) 16 in
      String (b64_char (N.shiftr n 18)) (String (b64_char (N.shiftr n 12)) "==")
  | [a; b] =>
      let n := N.lor (N.shiftl (Byte.to_N a) 16) (N.shiftl (Byte.to_N b) 8) in
      String (b64_char (N.shiftr n 18))
        (String (b64_char (N.shiftr n 12))
           (String (b64_char (N.shiftr n 6)) "="))
  | a :: b :: c :: rest =>
      let n := N.lor (N.lor (N.shiftl (Byte.to_N a) 16)
                            (N.shiftl (Byte.to_N b) 8)) (Byte.to_N c) in
      String (b64_char (N.shiftr n 18))
        (String (b64_char (N.shiftr n 12))
           (String (b64_char (N.shiftr n 6))
              (String (b64_char n) (b64encode rest))))
  end.

(** ** Telegram updates *)

Record PhotoSize : Type := { file_id : string; file_size : option Z }.

(** An incoming message.  [Command name written] is a text message that
    opens with a bot command (Telegram marks it with a [bot_command] entity
    at offset 0): its text is the slash followed by [written], everything
    after the slash exactly as it was typed, whatever the case, with a bot
    suffix and arguments if there are any; [name] is the command as the
    library's [CommandHandler] compares it (lower case, without the suffix
    that names this bot).  "/CANCEL now" is [Command "cancel" "CANCEL now"]. *)
Inductive message : Type :=
  | Photo (photo : list PhotoSize)
  | Text (text : string)
  | Command (name : string) (written : string)
  | Other.

Record update : Type := { effective_user : Z; update_message : message }.

(** [update.message.text]. *)
Definition message_text (m : message) : value :=
  match m with
  | Text text => VStr text
  | Command _ written => VStr ("/" +:+ written)
  | Photo _ | Other => VNone
  end.

(** [update.message.photo]. *)
Definition message_photo (m : message) : list PhotoSize :=
  match m with
  | Photo photo => photo
  | _ => []
  end.

(** ** What the bot does to the outside world *)

(** [reply_markup]: nothing, a keyboard given by its rows of labels (the bot
    always asks for a resized, one-time keyboard), or its removal. *)
Inductive markup : Type :=
  | NoMarkup
  | ReplyKeyboardMarkup (keyboard : list (list string))
  | ReplyKeyboardRemove.

Inductive parse_mode : Type := PlainText | MARKDOWN.

(** The JSON body [send_to_api] posts. *)
Record payload : Type := {
  telegramId : string;
  text : value;
  botToken : value;
  timestamp : Z;
  imageBase64 : option string
}.

(** One entry per call that leaves the process, in program order.
    [delivered] tells whether the chat platform accepted the message. *)
Inductive event : Type :=
  | Reply (content : string) (m : markup) (p : parse_mode) (delivered : bool)
  | Edit (content : string) (p : parse_mode) (delivered : bool)
  | GetFile (file : value)
  | Download (path : string)
  | Post (url : string) (body : payload)
  | Get (url : string) (telegram_id : string).

Inductive http_result : Type :=
  | HttpRaise                  (* timeout, refused connection, body not JSON *)
  | HttpJson (data : value).

(** The environment of one turn. *)
Record env : Type := {
  reply_ok : nat -> bool;          (* is the n-th new message of the turn accepted *)
  edit_ok : nat -> bool;           (* is the n-th edit of the turn accepted *)
  bot_get_file : value -> option string;
  file_download : string -> option (list Byte.byte);
  http_post : string -> payload -> http_result;
  http_get : string -> string -> http_result;
  loop_time : Q;                   (* asyncio event loop clock (monotonic) *)
  epoch_time : Q;                  (* wall clock, seconds since the Unix epoch *)
  BOT_SECRET : value;
  API_BASE_URL : string;
  container_repr : value -> string
}.

(** ** The handler monad: state, trace and exceptions *)

Record hstate : Type := HState {
  user_data : gmap string value;
  trace : list event
}.

Inductive result (A : Type) : Type :=
  | Ret (a : A)
  | Raise (x : exn).
Arguments Ret {A} a.
Arguments Raise {A} x.

Definition M (A : Type) : Type := env -> hstate -> result A * hstate.

Definition ret {A} (a : A) : M A := fun _ s => (Ret a, s).

Definition raise {A} (x : exn) : M A := fun _ s => (Raise x, s).

Definition bind {A B} (m : M A) (k : A -> M B) : M B :=
  fun e s =>
    match m e s with
    | (Ret a, s') => k a e s'
    | (Raise x, s') => (Raise x, s')
    end.

(** [try: body except Exception: handler]. *)
Definition try_except {A} (body : M A) (handler : exn -> M A) : M A :=
  fun e s =>
    match body e s with
    | (Ret a, s') => (Ret a, s')
    | (Raise x, s') => handler x e s'
    end.

Notation "x <- c ;; k" := (bind c (fun x => k))
  (at level 100, c at next level, right associativity).
Notation "c ;;; k" := (bind c (fun _ => k))
  (at level 100, right associativity).

Definition ask : M env := fun e s => (Ret e, s).

Definition get_user_data : M (gmap string value) :=
  fun _ s => (Ret (user_data s), s).

Definition set_user_data (k : string) (v : value) : M unit :=
  fun _ s => (Ret tt, HState (<[k := v]> (user_data s)) (trace s)).

Definition clear_user_data : M unit :=
  fun _ s => (Ret tt, HState ∅ (trace s)).

Definition is_reply (ev : event) : bool :=
  match ev with Reply _ _ _ _ => true | _ => false end.

Definition is_edit (ev : event) : bool :=
  match ev with Edit _ _ _ => true | _ => false end.

Definition is_post (ev : event) : bool :=
  match ev with Post _ _ => true | _ => false end.

(** [update.message.reply_text(...)]: the platform may refuse. *)
Definition reply_text (content : string) (m : markup) (p : parse_mode) : M unit :=
  fun e s =>
    let ok := reply_ok e (length (List.filter is_reply (trace s))) in
    (if ok then Ret tt else Raise TelegramError,
     HState (user_data s) (trace s ++ [Reply content m p ok])).

(** [processing_msg.edit_text(...)]. *)
Definition edit_text (content : string) (p : parse_mode) : M unit :=
  fun e s =>
    let ok := edit_ok e (length (List.filter is_edit (trace s))) in
    (if ok then Ret tt else Raise TelegramError,
     HState (user_data s) (trace s ++ [Edit content p ok])).

Definition get_file (file : value) : M string :=
  fun e s =>
    (match bot_get_file e file with Some path => Ret path | None => Raise TelegramError end,
     HState (user_data s) (trace s ++ [GetFile file])).

Definition download_as_bytearray (path : string) : M (list Byte.byte) :=
  fun e s =>
    (match file_download e path with Some b => Ret b | None => Raise TelegramError end,
     HState (user_data s) (trace s ++ [Download path])).

(** [session.post(url, json=body)] followed by [response.json()]. *)
Definition session_post (url : string) (body : payload) : M value :=
  fun e s =>
    (match http_post e url body with
     | HttpJson data => Ret data
     | HttpRaise => Raise ClientError
     end,
     HState (user_data s) (trace s ++ [Post url body])).

(** [session.get(url, params={"telegramId": id})] followed by [response.json()]. *)
Definition session_get (url : string) (telegram_id : string) : M value :=
  fun e s =>
    (match http_get e url telegram_id with
     | HttpJson data => Ret data
     | HttpRaise => Raise ClientError
     end,
     HState (user_data s) (trace s ++ [Get url telegram_id])).

(** [d.get(k, default)]: an [AttributeError] on anything but a dict. *)
Definition dict_get (d : value) (k : string) (default : value) : M value :=
  match d with
  | VDict fields => ret (from_option id default (dict_lookup k fields))
  | _ => raise AttributeError
  end.

(** [d[k]] with a string key. *)
Definition getitem (d : value) (k : string) : M value :=
  match d with
  | VDict fields =>
      match dict_lookup k fields with
      | Some v => ret v
      | None => raise KeyError
      end
  | _ => raise TypeError
  end.

(** [x[:n]]. *)
Definition slice_to (n : nat) (x : value) : M value :=
  match x with
  | VList items => ret (VList (firstn n items))
  | VStr s => ret (VStr (utf8_take n s))
  | _ => raise TypeError
  end.

(** An f-string field. *)
Definition str (v : value) : M string :=
  e <- ask ;; ret (py_str (container_repr e) v).

(** ** Conversation states *)

Definition WAITING_FOR_EVENT : Z := 1.
Definition WAITING_FOR_IMAGE : Z := 2.
Definition WAITING_FOR_DESCRIPTION : Z := 3.

(** [ConversationHandler.END]. *)
Definition END : Z := (-1).

(** ** Handlers of the dialog *)

Definition photo_prompt : string :=
  "📸 Great! I see you've sent a photo. Now tell me what happened with this product:".

Definition photo_keyboard : list (list string) :=
  [ ["🔴 Broken/Not Working"; "🔧 Fixed/Repaired"];
    ["🛒 Just Bought"; "♻️ Recycled/Disposed"];
    ["🎁 Sold/Gifted"; "⬆️ Upgraded/Modified"];
    ["🧽 Cleaned/Maintained"; "✅ Working Great"];
    ["📝 Custom Description"] ].

(** [photo[-1]]. *)
Definition last_item {A} (l : list A) : M A :=
  match last l with
  | Some a => ret a
  | None => raise IndexError
  end.

Definition handle_photo (u : update) : M Z :=
  reply_text photo_prompt (ReplyKeyboardMarkup photo_keyboard) PlainText ;;;
  photo <- last_item (message_photo (update_message u)) ;;
  set_user_data "photo_file_id" (VStr (file_id photo)) ;;;
  set_user_data "photo_size" (from_option VInt VNone (file_size photo)) ;;;
  ret WAITING_FOR_DESCRIPTION.

Definition text_only_prompt : string :=
  "📝 I see you've described something. For better product identification, "
  +:+ "could you also send a photo?" +:+ nl +:+ nl +:+
  "Or if you want to proceed with text only, I'll try to match based on your description:".

Definition text_only_keyboard : list (list string) :=
  [ ["📸 I'll send a photo"; "📝 Continue with text only"] ].

Definition handle_text_only (u : update) : M Z :=
  reply_text text_only_prompt (ReplyKeyboardMarkup text_only_keyboard) PlainText ;;;
  set_user_data "text_description" (message_text (update_message u)) ;;;
  ret WAITING_FOR_EVENT.

(** The list tested by [description in [...]]. *)
Definition quick_reply_labels : list string :=
  [ "🔴 Broken/Not Working"; "🔧 Fixed/Repaired"; "🛒 Just Bought";
    "♻️ Recycled/Disposed"; "🎁 Sold/Gifted"; "⬆️ Upgraded/Modified";
    "🧽 Cleaned/Maintained"; "✅ Working Great" ].

Definition description_mapping : list (string * string) :=
  [ ("🔴 Broken/Not Working", "This product is broken and not working properly");
    ("🔧 Fixed/Repaired", "I fixed and repaired this product, it's working now");
    ("🛒 Just Bought", "I just purchased this product");
    ("♻️ Recycled/Disposed", "I recycled or disposed of this product");
    ("🎁 Sold/Gifted", "I sold or gave away this product");
    ("⬆️ Upgraded/Modified", "I upgraded or modified this product");
    ("🧽 Cleaned/Maintained", "I cleaned and maintained this product");
    ("✅ Working Great", "This product is working great with no issues") ].

(** [description_mapping.get(description, description)]. *)
Fixpoint mapping_get (mapping : list (string * string)) (description : value) : value :=
  match mapping with
  | [] => description
  | (label, sentence) :: rest =>
      if py_eq_str description label then VStr sentence
      else mapping_get rest description
  end.

(** The [if]/[elif] chain that opens [process_lifecycle_event]: either a
    description to submit, or a prompt to send and the state to return. *)
Inductive quick_reply : Type :=
  | Submit (description : value)
  | Prompt (content : string) (next : Z).

Definition normalize (stored : gmap string value) (description : value) : quick_reply :=
  if existsb (py_eq_str description) quick_reply_labels then
    Submit (mapping_get description_mapping description)
  else if py_eq_str description "📝 Custom Description" then
    Prompt "Please describe what happened with your product:" WAITING_FOR_DESCRIPTION
  else if py_eq_str description "📸 I'll send a photo" then
    Prompt "Perfect! Please send a photo of your product:" WAITING_FOR_IMAGE
  else if py_eq_str description "📝 Continue with text only" then
    Submit (default description (stored !! "text_description"))
  else
    Submit description.

Definition processing_text : string :=
  "🔄 Processing your lifecycle event..." +:+ nl +:+
  "• Analyzing content" +:+ nl +:+
  "• Matching products" +:+ nl +:+
  "• Creating lifecycle step".

Definition apology : string :=
  "❌ Sorry, something went wrong processing your event. Please try again later.".

(** [get_photo_data]: download the photo and wrap it as a data URI; [None]
    on any exception. *)
Definition get_photo_data (file : value) : M (option string) :=
  try_except
    (path <- get_file file ;;
     photo_bytes <- download_as_bytearray path ;;
     ret (Some ("data:image/jpeg;base64," +:+ b64encode photo_bytes)))
    (fun _ => ret None).

(** The address and the [payload] dict of [send_to_api]. *)
Definition request_url (e : env) : string :=
  API_BASE_URL e +:+ "/lifecycle/telegram-event".

Definition request_body (e : env) (telegram_id : string) (description : value)
    (image_data : option string) : payload :=
  {| telegramId := telegram_id;
     text := description;
     botToken := BOT_SECRET e;
     timestamp := int_of_float (loop_time e);
     imageBase64 :=
       match image_data with
       | Some data => if String.eqb data "" then None else Some data
       | None => None
       end |}.

(** [send_to_api]: no [try] in it, so a failing request raises. *)
Definition send_to_api (telegram_id : string) (description : value)
    (image_data : option string) : M value :=
  e <- ask ;;
  session_post (request_url e) (request_body e telegram_id description image_data).

(** The f-string [success_message]. *)
Definition success_message (result : value) : M string :=
  product <- getitem result "matchedProduct" ;;
  name <- getitem product "name" ;;
  name <- str name ;;
  step <- getitem result "lifecycleStep" ;;
  title <- getitem step "title" ;;
  title <- str title ;;
  info <- getitem result "matchInfo" ;;
  confidence <- getitem info "confidence" ;;
  confidence <- str confidence ;;
  info <- getitem result "matchInfo" ;;
  message <- getitem info "message" ;;
  message <- str message ;;
  step <- getitem result "lifecycleStep" ;;
  description <- getitem step "description" ;;
  description <- str description ;;
  ret (nl +:+
       "✅ *Lifecycle Event Recorded!*" +:+ nl +:+
       nl +:+
       "*Product:* " +:+ name +:+ nl +:+
       "*Event:* " +:+ title +:+ nl +:+
       "*Match Confidence:* " +:+ confidence +:+ "%" +:+ nl +:+
       nl +:+
       message +:+ nl +:+
       nl +:+
       "*Description:* " +:+ description +:+ nl +:+
       nl +:+
       "🌱 Check your Life app dashboard to see the full timeline!" +:+ nl +:+
       "                ").

(** The f-string [error_message]. *)
Definition error_message (result : value) : M string :=
  fallback <- dict_get result "error" (VStr "Failed to process event") ;;
  shown <- dict_get result "message" fallback ;;
  shown <- str shown ;;
  ret ("❌ " +:+ shown).

(** Edit the placeholder; if that raises, send a new message instead. *)
Definition edit_or_reply (content : string) (p : parse_mode) : M unit :=
  try_except (edit_text content p) (fun _ => reply_text content NoMarkup p).

(** [if result and result.get('success', False): ... else: ...]: the
    outcome replaces the placeholder. *)
Definition render_outcome (result : value) : M unit :=
  success <-
    (if truthy result then dict_get result "success" (VBool false)
     else ret result) ;;
  if truthy success then
    content <- success_message result ;;
    edit_or_reply content MARKDOWN
  else
    content <- error_message result ;;
    edit_or_reply content PlainText.

(** The guarded block of [process_lifecycle_event]: fetch the photo if one
    is stored, submit, render; on any exception show the apology. *)
Definition attempt (telegram_id : string) (description : value) : M unit :=
  try_except
    (stored <- get_user_data ;;
     image_data <-
       match stored !! "photo_file_id" with
       | Some file => get_photo_data file
       | None => ret None
       end ;;
     result <- send_to_api telegram_id description image_data ;;
     render_outcome result)
    (fun _ => edit_or_reply apology PlainText).

Definition process_lifecycle_event (u : update) : M Z :=
  let telegram_id := pretty (effective_user u) in
  stored <- get_user_data ;;
  match normalize stored (message_text (update_message u)) with
  | Prompt content next =>
      reply_text content ReplyKeyboardRemove PlainText ;;;
      ret next
  | Submit description =>
      reply_text processing_text ReplyKeyboardRemove PlainText ;;;
      attempt telegram_id description ;;;
      clear_user_data ;;;
      ret END
  end.

Definition cancelled_text : string :=
  "❌ Operation cancelled. Send me a photo anytime to track a lifecycle event!".

Definition cancel_command (u : update) : M Z :=
  clear_user_data ;;;
  reply_text cancelled_text ReplyKeyboardRemove PlainText ;;;
  ret END.

Definition error_text : string :=
  "❌ Sorry, something went wrong. Please try again or contact support.".

(** [error_handler]: every update of this model carries a message. *)
Definition error_handler (u : update) : M unit :=
  reply_text error_text NoMarkup PlainText.

(** ** Filters, handlers and the conversation handler

    The part of python-telegram-bot that [setup_handlers] relies on.  A
    filter is a predicate on the message; [filters.TEXT] holds of every
    message with a non-empty text, bot commands included, which is why the
    text entry point is registered with [filters.TEXT & ~filters.COMMAND]. *)

Inductive filters : Type :=
  | PHOTO
  | TEXT
  | COMMAND
  | And (f g : filters)
  | Not (f : filters).

Fixpoint filter_check (f : filters) (m : message) : bool :=
  match f with
  | PHOTO => match message_photo m with [] => false | _ => true end
  | TEXT => truthy (message_text m)
  | COMMAND => match m with Command _ _ => true | _ => false end
  | And f g => filter_check f m && filter_check g m
  | Not f => negb (filter_check f m)
  end.

Inductive handler : Type :=
  | MessageHandler (f : filters) (callback : update -> M Z)
  | CommandHandler (command : string) (callback : update -> M Z).

Definition check_update (h : handler) (u : update) : bool :=
  match h with
  | MessageHandler f _ => filter_check f (update_message u)
  | CommandHandler command _ =>
      match update_message u with
      | Command name _ => String.eqb name command
      | _ => false
      end
  end.

Definition callback (h : handler) : update -> M Z :=
  match h with
  | MessageHandler _ callback => callback
  | CommandHandler _ callback => callback
  end.

Record ConversationHandler : Type := {
  entry_points : list handler;
  states : list (Z * list handler);
  fallbacks : list handler
}.

(** The handler [setup_handlers] builds.  [WAITING_FOR_IMAGE] has no entry
    in [states]. *)
Definition conv_handler : ConversationHandler :=
  {| entry_points :=
       [ MessageHandler PHOTO handle_photo;
         MessageHandler (And TEXT (Not COMMAND)) handle_text_only ];
     states :=
       [ (WAITING_FOR_EVENT, [MessageHandler TEXT process_lifecycle_event]);
         (WAITING_FOR_DESCRIPTION, [MessageHandler TEXT process_lifecycle_event]) ];
     fallbacks := [CommandHandler "cancel" cancel_command] |}.

(** [self.states.get(state, [])]. *)
Fixpoint state_handlers (table : list (Z * list handler)) (s : Z) : list handler :=
  match table with
  | [] => []
  | (s', hs) :: rest => if (s' =? s)%Z then hs else state_handlers rest s
  end.

Definition first_match (hs : list handler) (u : update) : option handler :=
  List.find (fun h => check_update h u) hs.

(** [ConversationHandler.check_update] (re-entry is off by default): without
    a conversation the entry points are tried; within one, the handlers of
    the current state and then the fallbacks. *)
Definition select_handler (ch : ConversationHandler) (state : option Z) (u : update)
    : option handler :=
  match state with
  | None => first_match (entry_points ch) u
  | Some s =>
      match first_match (state_handlers (states ch) s) u with
      | Some h => Some h
      | None => first_match (fallbacks ch) u
      end
  end.

(** What a handler of the conversation works on: the conversation handler's
    state under the key of the update, which is the pair of its chat and its
    user ([None]: no conversation is running there, the idle state), and
    the user's [context.user_data], which belongs to the user and not to
    the chat (see [application] below). *)
Record conv : Type := Conv {
  state : option Z;
  data : gmap string value
}.

Definition idle : conv := Conv None ∅.

(** [ConversationHandler._update_state]: [END] removes the key, any other
    value is stored, known to [states] or not. *)
Definition update_state (new_state : Z) : option Z :=
  if (new_state =? END)%Z then None else Some new_state.

(** Commands whose [CommandHandler]s [setup_handlers] adds before the
    conversation handler.  The application hands an update to the first
    handler of the group that accepts it, so the conversation never sees
    these; their replies are not part of the dialog and are not traced. *)
Definition account_commands : list string :=
  ["start"; "help"; "link"; "status"; "products"].

Definition is_account_command (u : update) : bool :=
  match update_message u with
  | Command name _ => existsb (String.eqb name) account_commands
  | _ => false
  end.

(** One update through the application.  A handler that raises leaves the
    conversation state as it was; what it did to [user_data] stays, and
    [error_handler] answers. *)
Definition process_update (c : conv) (u : update) (e : env) : conv * list event :=
  if is_account_command u then (c, [])
  else
    match select_handler conv_handler (state c) u with
    | None => (c, [])
    | Some h =>
        match callback h u e (HState (data c) []) with
        | (Ret new_state, s) => (Conv (update_state new_state) (user_data s), trace s)
        | (Raise _, s) =>
            let s' := snd (error_handler u e s) in
            (Conv (state c) (user_data s'), trace s')
        end
    end.

(** A whole exchange of one user in one chat, nothing else reaching the
    bot from that user meanwhile: each update with the environment of its
    turn. *)
Fixpoint run (c : conv) (turns : list (update * env)) : conv * list event :=
  match turns with
  | [] => (c, [])
  | (u, e) :: rest =>
      let '(c1, t1) := process_update c u e in
      let '(c2, t2) := run c1 rest in
      (c2, (t1 ++ t2)%list)
  end.

(** ** The application: a conversation per chat and user, data per user

    [setup_handlers] builds the conversation handler with the library's
    defaults ([per_chat] and [per_user]), so its states are kept under the
    key (chat id, user id); [context.user_data] is the application's dict
    for the user id alone, the same in every chat of that user. *)
Record application : Type := App {
  conversations : gmap (Z * Z) Z;
  users_data : gmap Z (gmap string value)
}.

(** The application as [main] starts it. *)
Definition started : application := App ∅ ∅.

(** What the handlers see for an update of user [uid] in chat [chat]. *)
Definition conversation_of (a : application) (chat uid : Z) : conv :=
  Conv (conversations a !! (chat, uid)) (default ∅ (users_data a !! uid)).

(** One update, arriving in chat [chat], through the application. *)
Definition dispatch (a : application) (chat : Z) (u : update) (e : env)
    : application * list event :=
  let uid := effective_user u in
  let turn := process_update (conversation_of a chat uid) u e in
  (App
     match state (fst turn) with
     | Some s => <[(chat, uid) := s]> (conversations a)
     | None => delete (chat, uid) (conversations a)
     end
     (<[uid := data (fst turn)]> (users_data a)),
   snd turn).


(** ** The account queries *)

(** A string seen as a sequence: its characters, one UTF-8 group each. *)
Fixpoint utf8_chars (s : string) : list string :=
  match s with
  | EmptyString => []
  | String c rest =>
      match rest with
      | String c' _ =>
          if utf8_continuation c' then
            match utf8_chars rest with
            | h :: t => String c h :: t
            | [] => [String c ""]
            end
          else String c "" :: utf8_chars rest
      | EmptyString => [String c ""]
      end
  end.

(** [for x in v] over the result of a slice. *)
Definition elements (v : value) : list value :=
  match v with
  | VList items => items
  | VStr s => map VStr (utf8_chars s)
  | _ => []
  end.

(** [len(v)] of the same. *)
Definition py_len (v : value) : Z := Z.of_nat (length (elements v)).

Fixpoint for_each {A B} (f : A -> M B) (l : list A) : M (list B) :=
  match l with
  | [] => ret []
  | a :: rest => b <- f a ;; bs <- for_each f rest ;; ret (b :: bs)
  end.

Definition activity_line (activity : value) : M string :=
  icon <- dict_get activity "stepIcon" (VStr "📝") ;;
  product <- dict_get activity "productName" (VStr "Product") ;;
  event <- dict_get activity "stepLabel" (VStr "Event") ;;
  icon <- str icon ;;
  event <- str event ;;
  product <- str product ;;
  ret (icon +:+ " " +:+ event +:+ ": " +:+ product).

Definition format_recent_activity (activities : value) : M string :=
  if negb (truthy activities) then ret "No recent activity"
  else
    shown <- slice_to 3 activities ;;
    activity_lines <- for_each activity_line (elements shown) ;;
    ret (join nl activity_lines).

Record status_info : Type := {
  status_linked : bool;
  name : value;
  tracked_count : value;
  linked_date : value;
  recent_activity : string
}.

Definition status_not_linked : status_info :=
  {| status_linked := false;
     name := VStr "Unknown";
     tracked_count := VInt 0;
     linked_date := VStr "Not linked";
     recent_activity := "No recent activity" |}.

Definition status_error : status_info :=
  {| status_linked := false;
     name := VStr "Unknown";
     tracked_count := VInt 0;
     linked_date := VStr "Error checking status";
     recent_activity := "Unable to fetch activity" |}.

Definition status_url (e : env) : string := API_BASE_URL e +:+ "/telegram/status".

(** What [check_user_status] makes of the decoded response. *)
Definition status_of (data : value) : M status_info :=
  linked <- dict_get data "linked" VNone ;;
  if truthy linked then
    user <- getitem data "user" ;;
    user_name <- getitem user "name" ;;
    stats <- getitem data "stats" ;;
    tracked <- getitem stats "trackedProducts" ;;
    user <- getitem data "user" ;;
    linked_at <- getitem user "linkedAt" ;;
    activities <- dict_get data "recentActivity" (VList []) ;;
    activity <- format_recent_activity activities ;;
    ret {| status_linked := true;
           name := if truthy user_name then user_name else VStr "Unknown";
           tracked_count := tracked;
           linked_date := linked_at;
           recent_activity := activity |}
  else ret status_not_linked.

Definition check_user_status (telegram_id : string) : M status_info :=
  try_except
    (e <- ask ;;
     data <- session_get (status_url e) telegram_id ;;
     status_of data)
    (fun _ => ret status_error).

Record products_info : Type := {
  products_linked : bool;
  products : value;
  avg_score : value
}.

Definition products_not_linked : products_info :=
  {| products_linked := false; products := VList []; avg_score := VInt 0 |}.

Definition products_url (e : env) : string := API_BASE_URL e +:+ "/telegram/products".

(** What [get_user_products] makes of the decoded response. *)
Definition products_of (data : value) : M products_info :=
  linked <- dict_get data "linked" VNone ;;
  if truthy linked then
    listed <- getitem data "products" ;;
    first_ten <- slice_to 10 listed ;;
    stats <- getitem data "stats" ;;
    score <- getitem stats "avgEcoScore" ;;
    ret {| products_linked := true; products := first_ten; avg_score := score |}
  else ret products_not_linked.

Definition get_user_products (telegram_id : string) : M products_info :=
  try_except
    (e <- ask ;;
     data <- session_get (products_url e) telegram_id ;;
     products_of data)
    (fun _ => ret products_not_linked).

Definition product_line (p : value) : M string :=
  product_name <- getitem p "name" ;;
  product_name <- str product_name ;;
  score <- getitem p "ecoScore" ;;
  score <- str score ;;
  ret ("• " +:+ product_name +:+ " (Score: " +:+ score +:+ "/100)").

Definition no_products_message : string :=
  nl +:+
  "📦 *No Products Tracked Yet*" +:+ nl +:+
  nl +:+
  "You haven't tracked any products in the Life app yet." +:+ nl +:+
  nl +:+
  "*To start tracking:*" +:+ nl +:+
  "1. Visit Life app in your browser" +:+ nl +:+
  "2. Use the browser extension or manual tracking" +:+ nl +:+
  "3. Come back here to report lifecycle events!" +:+ nl +:+
  nl +:+
  "🌱 Start your sustainability journey today!" +:+ nl +:+
  "            ".

Definition products_message (products_list : string) (total : Z) (avg : string) : string :=
  nl +:+
  "📦 *Your Tracked Products*" +:+ nl +:+
  nl +:+
  products_list +:+ nl +:+
  nl +:+
  "*Total Products:* " +:+ pretty total +:+ nl +:+
  "*Average Eco Score:* " +:+ avg +:+ "/100" +:+ nl +:+
  nl +:+
  "💡 Send me photos of these products with descriptions to track lifecycle events!" +:+ nl +:+
  "            ".

(** What [products_command] answers once it has the listing. *)
Definition show_products (info : products_info) : M unit :=
  if negb (products_linked info) then
    reply_text "❌ Account not linked. Use /link to connect your account first!"
      NoMarkup MARKDOWN
  else if truthy (products info) then
    product_lines <- for_each product_line (elements (products info)) ;;
    avg <- str (avg_score info) ;;
    reply_text
      (products_message (join nl product_lines) (py_len (products info)) avg)
      NoMarkup MARKDOWN
  else
    reply_text no_products_message NoMarkup MARKDOWN.

Definition products_command (u : update) : M unit :=
  let telegram_id := pretty (effective_user u) in
  info <- get_user_products telegram_id ;;
  show_products info.

(** * Notions used in the statements *)

(** Every new message is accepted by the chat platform (edits may fail). *)
Definition replies_delivered (e : env) : Prop := forall n, reply_ok e n = true.

(** The submission calls of a trace. *)
Definition submissions (t : list event) : list event := List.filter is_post t.

(** A computation that neither touches the state nor the outside world. *)
Definition pure {A} (m : M A) : Prop :=
  forall e s, m e s = (fst (m e (HState ∅ [])), s).

(** The text and parse mode [render_outcome] settles on, before anything is
    sent. *)
Definition outcome_content (result : value) : M (string * parse_mode) :=
  success <-
    (if truthy result then dict_get result "success" (VBool false)
     else ret result) ;;
  if truthy success then
    content <- success_message result ;; ret (content, MARKDOWN)
  else
    content <- error_message result ;; ret (content, PlainText).

(** What the user is shown at the end of a submission turn: the rendered
    outcome, or the apology when the request or the rendering raised. *)
Definition shown (e : env) (r : http_result) : string * parse_mode :=
  match r with
  | HttpRaise => (apology, PlainText)
  | HttpJson result =>
      match fst (outcome_content result e (HState ∅ [])) with
      | Ret cp => cp
      | Raise _ => (apology, PlainText)
      end
  end.

(** The events of [edit_or_reply] when new messages go through. *)
Definition shown_events (ok : bool) (cp : string * parse_mode) : list event :=
  Edit (fst cp) (snd cp) ok ::
  (if ok then [] else [Reply (fst cp) NoMarkup (snd cp) true]).

(** The events and the result of [get_photo_data]. *)
Definition photo_events (e : env) (file : value) : list event :=
  GetFile file ::
  match bot_get_file e file with
  | Some path => [Download path]
  | None => []
  end.

Definition photo_image (e : env) (file : value) : option string :=
  match bot_get_file e file with
  | Some path =>
      match file_download e path with
      | Some photo_bytes => Some ("data:image/jpeg;base64," +:+ b64encode photo_bytes)
      | None => None
      end
  | None => None
  end.

(** What a submission turn fetches, the image it ends up with, and the
    request it sends. *)
Definition fetch_events (e : env) (stored : gmap string value) : list event :=
  match stored !! "photo_file_id" with
  | Some file => photo_events e file
  | None => []
  end.

Definition fetched_image (e : env) (stored : gmap string value) : option string :=
  match stored !! "photo_file_id" with
  | Some file => photo_image e file
  | None => None
  end.

Definition turn_body (e : env) (u : update) (stored : gmap string value)
    (description : value) : payload :=
  request_body e (pretty (effective_user u)) description (fetched_image e stored).

(** The user data [handle_photo] leaves for a photo. *)
Definition photo_data (p : PhotoSize) : gmap string value :=
  <["photo_size" := from_option VInt VNone (file_size p)]>
    (<["photo_file_id" := VStr (file_id p)]> ∅).

(** The conversation is in one of the two states [setup_handlers] registers. *)
Definition in_dialog (c : conv) : Prop :=
  state c = Some WAITING_FOR_EVENT \/ state c = Some WAITING_FOR_DESCRIPTION.

(** The three labels that steer the dialog instead of describing an event. *)
Definition control_labels : list string :=
  ["📝 Custom Description"; "📸 I'll send a photo"; "📝 Continue with text only"].

(** [sub in s]. *)
Definition contains (s sub : string) : Prop :=
  exists before after, s = before +:+ sub +:+ after.

(** * Sample inputs *)

Definition from_user (m : message) : update :=
  {| effective_user := 42; update_message := m |}.

Definition lamp_photo : PhotoSize :=
  {| file_id := "AgACAgQ"; file_size := Some 51200%Z |}.

Definition thumbnail : PhotoSize :=
  {| file_id := "AgACAgI"; file_size := Some 1200%Z |}.

(** The success response of the specification. *)
Definition lamp_response : value :=
  VDict
    [ ("success", VBool true);
      ("matchedProduct", VDict [("name", VStr "Lamp")]);
      ("lifecycleStep",
        VDict [("title", VStr "Repaired"); ("description", VStr "Fixed the lamp")]);
      ("matchInfo",
        VDict [("confidence", VInt 87); ("message", VStr "High confidence match")]) ].

Definition product (product_name : string) (score : Z) : value :=
  VDict [("name", VStr product_name); ("ecoScore", VInt score)].

(** Twelve tracked products, and the listing that reports them. *)
Definition catalogue : list value :=
  [ product "Lamp" 71; product "Laptop" 64; product "Kettle" 80;
    product "Phone" 58; product "Bicycle" 95; product "Toaster" 77;
    product "Headphones" 62; product "Vacuum" 69; product "Chair" 88;
    product "Blender" 73; product "Printer" 41; product "Router" 66 ].

Definition listing_fields : list (string * value) :=
  [ ("linked", VBool true);
    ("products", VList catalogue);
    ("stats", VDict [("avgEcoScore", VInt 70)]) ].

(** Everything works: messages and edits go through, the photo downloads,
    the backend answers the submission with [lamp_response] and the product
    query with the listing; the status query fails.  The event loop's clock
    reads 5123.7 s while the wall clock reads 1700000000 s. *)
Definition sunny : env :=
  {| reply_ok := fun _ => true;
     edit_ok := fun _ => true;
     bot_get_file := fun _ => Some "photos/file_1.jpg";
     file_download := fun _ => Some [Byte.x4d; Byte.x61; Byte.x6e];
     http_post := fun _ _ => HttpJson lamp_response;
     http_get := fun url _ =>
       if String.eqb url "https://localhost:3000/api/telegram/products"
       then HttpJson (VDict listing_fields) else HttpRaise;
     loop_time := 51237 # 10;
     epoch_time := 1700000000 # 1;
     BOT_SECRET := VStr "secret";
     API_BASE_URL := "https://localhost:3000/api";
     container_repr := fun _ => "" |}.

(** As [sunny], but the placeholder can no longer be edited. *)
Definition stale : env :=
  {| reply_ok := reply_ok sunny;
     edit_ok := fun _ => false;
     bot_get_file := bot_get_file sunny;
     file_download := file_download sunny;
     http_post := http_post sunny;
     http_get := http_get sunny;
     loop_time := loop_time sunny;
     epoch_time := epoch_time sunny;
     BOT_SECRET := BOT_SECRET sunny;
     API_BASE_URL := API_BASE_URL sunny;
     container_repr := container_repr sunny |}.

(** The backend cannot be reached, the photo cannot be fetched and the
    placeholder cannot be edited; new messages still go through. *)
Definition stormy : env :=
  {| reply_ok := fun _ => true;
     edit_ok := fun _ => false;
     bot_get_file := fun _ => None;
     file_download := fun _ => None;
     http_post := fun _ _ => HttpRaise;
     http_get := fun _ _ => HttpRaise;
     loop_time := loop_time sunny;
     epoch_time := epoch_time sunny;
     BOT_SECRET := BOT_SECRET sunny;
     API_BASE_URL := API_BASE_URL sunny;
     container_repr := container_repr sunny |}.

(** * The status command *)

(** The two f-strings of [status_command]. *)
Definition status_linked_message (telegram_id : string) (info : status_info) : M string :=
  user_name <- str (name info) ;;
  tracked <- str (tracked_count info) ;;
  since <- str (linked_date info) ;;
  ret (nl +:+
       "✅ *Account Status: Linked*" +:+ nl +:+
       nl +:+
       "*Your Info:*" +:+ nl +:+
       "• Telegram ID: `" +:+ telegram_id +:+ "`" +:+ nl +:+
       "• Life App User: " +:+ user_name +:+ nl +:+
       "• Tracked Products: " +:+ tracked +:+ nl +:+
       "• Linked Since: " +:+ since +:+ nl +:+
       nl +:+
       "*Recent Activity:*" +:+ nl +:+
       recent_activity info +:+ nl +:+
       nl +:+
       "🎉 You're all set! Send me photos to track events." +:+ nl +:+
       "            ").

Definition status_not_linked_message (telegram_id : string) : string :=
  nl +:+
  "❌ *Account Status: Not Linked*" +:+ nl +:+
  nl +:+
  "Your Telegram account is not yet connected to the Life app." +:+ nl +:+
  nl +:+
  "*To link your account:*" +:+ nl +:+
  "1. Use /link for instructions" +:+ nl +:+
  "2. Go to Life app → Settings → Telegram" +:+ nl +:+
  "3. Enter your ID: `" +:+ telegram_id +:+ "`" +:+ nl +:+
  nl +:+
  "Need help? Check /help for more info!" +:+ nl +:+
  "            ".

Definition status_command (u : update) : M unit :=
  let telegram_id := pretty (effective_user u) in
  info <- check_user_status telegram_id ;;
  status_message <-
    (if status_linked info then status_linked_message telegram_id info
     else ret (status_not_linked_message telegram_id)) ;;
  reply_text status_message NoMarkup MARKDOWN.

(** * Further notions used in the statements *)

(** ** Turns in any environment *)

(** What [edit_or_reply] does after [edits] edits and [replies] new messages
    of the turn: its events, and whether it ends without raising. *)
Definition edit_or_reply_events (e : env) (edits replies : nat)
    (cp : string * parse_mode) : list event * bool :=
  if edit_ok e edits then ([Edit (fst cp) (snd cp) true], true)
  else ([Edit (fst cp) (snd cp) false;
         Reply (fst cp) NoMarkup (snd cp) (reply_ok e replies)],
        reply_ok e replies).

(** The same for the rendering of [attempt]: the outcome first and, if that
    could be neither edited in nor sent, the apology. *)
Definition rendering (e : env) (edits replies : nat) (r : http_result)
    : list event * bool :=
  match r with
  | HttpRaise => edit_or_reply_events e edits replies (apology, PlainText)
  | HttpJson result =>
      match fst (outcome_content result e (HState ∅ [])) with
      | Raise _ => edit_or_reply_events e edits replies (apology, PlainText)
      | Ret cp =>
          let first := edit_or_reply_events e edits replies cp in
          if snd first then first
          else
            let second :=
              edit_or_reply_events e (S edits) (S replies) (apology, PlainText) in
            ((fst first ++ fst second)%list, snd second)
      end
  end.

(** The events of a whole submission turn, handler and error handler, and
    whether the handler returned. *)
Definition submit_events (e : env) (u : update) (stored : gmap string value)
    (description : value) : list event * bool :=
  if reply_ok e 0 then
    let r := rendering e 0 1
               (http_post e (request_url e) (turn_body e u stored description)) in
    ((Reply processing_text ReplyKeyboardRemove PlainText true ::
      fetch_events e stored ++
      Post (request_url e) (turn_body e u stored description) :: fst r)%list,
     snd r)
  else ([Reply processing_text ReplyKeyboardRemove PlainText false], false).

(** The answer of [error_handler] after a turn that sent [t]. *)
Definition error_reply (e : env) (t : list event) : event :=
  Reply error_text NoMarkup PlainText (reply_ok e (length (List.filter is_reply t))).

(** ** Routing and the stored data *)

(** The callback the application picks for an update, if any. *)
Definition route (c : conv) (u : update) : option (update -> M Z) :=
  if is_account_command u then None
  else option_map callback (select_handler conv_handler (state c) u).

(** Running a callback as [process_update] does. *)
Definition handle (h : update -> M Z) (c : conv) (u : update) (e : env)
    : conv * list event :=
  match h u e (HState (data c) []) with
  | (Ret new_state, s) => (Conv (update_state new_state) (user_data s), trace s)
  | (Raise _, s) =>
      let s' := snd (error_handler u e s) in
      (Conv (state c) (user_data s'), trace s')
  end.

(** [user_data] once [handle_photo] has stored photo [p] in it. *)
Definition photo_data_in (stored : gmap string value) (p : PhotoSize)
    : gmap string value :=
  <["photo_size" := from_option VInt VNone (file_size p)]>
    (<["photo_file_id" := VStr (file_id p)]> stored).

(** How an update is routed: to no handler, or to one of four. *)
Inductive routed (c : conv) (u : update) : option (update -> M Z) -> Prop :=
  | routed_nowhere : routed c u None
  | routed_photo p sizes :
      state c = None -> update_message u = Photo (p :: sizes) ->
      routed c u (Some handle_photo)
  | routed_text t :
      state c = None -> update_message u = Text t -> t <> "" ->
      routed c u (Some handle_text_only)
  | routed_dialog :
      in_dialog c -> is_account_command u = false ->
      truthy (message_text (update_message u)) = true ->
      routed c u (Some process_lifecycle_event)
  | routed_cancel s written :
      state c = Some s -> s <> WAITING_FOR_EVENT -> s <> WAITING_FOR_DESCRIPTION ->
      update_message u = Command "cancel" written ->
      routed c u (Some cancel_command).

(** ** Base64 read back *)

(** The place of a character in the alphabet; 64 for any other character,
    the padding sign included. *)
Fixpoint index_in (c : ascii) (l : list ascii) : N :=
  match l with
  | [] => 0
  | x :: rest => if Ascii.eqb x c then 0 else N.succ (index_in c rest)
  end.

Definition b64_index (c : ascii) : N := index_in c b64_alphabet.

Definition byte_of_N (n : N) : Byte.byte := default Byte.x00 (Byte.of_N n).

(** Standard decoding of padded base64, four characters at a time. *)
Fixpoint b64decode (s : string) : list Byte.byte :=
  match s with
  | String c0 (String c1 (String c2 (String c3 rest))) =>
      let n := (((b64_index c0 * 64 + b64_index c1) * 64
                 + b64_index c2 mod 64) * 64 + b64_index c3 mod 64)%N in
      let b0 := byte_of_N (n / 65536) in
      let b1 := byte_of_N ((n / 256) mod 256) in
      let b2 := byte_of_N (n mod 256) in
      if Ascii.eqb c2 "=" then [b0]
      else if Ascii.eqb c3 "=" then [b0; b1]
      else b0 :: b1 :: b2 :: b64decode rest
  | _ => []
  end.

(** ** Well-formed responses *)

(** A JSON object. *)
Definition is_dict (v : value) : bool :=
  match v with VDict _ => true | _ => false end.

(** [r] is an exception. *)
Definition raises {A} (r : result A) : Prop := exists x, r = Raise x.

(** A product entry with the two fields [products_command] reads. *)
Definition well_formed_product (p : value) : Prop :=
  exists fields product_name score,
    p = VDict fields /\ dict_lookup "name" fields = Some product_name /\
    dict_lookup "ecoScore" fields = Some score.

(** * Further sample inputs *)

(** As [sunny], but the chat platform accepts no message and no edit. *)
Definition muted : env :=
  {| reply_ok := fun _ => false;
     edit_ok := fun _ => false;
     bot_get_file := bot_get_file sunny;
     file_download := file_download sunny;
     http_post := http_post sunny;
     http_get := http_get sunny;
     loop_time := loop_time sunny;
     epoch_time := epoch_time sunny;
     BOT_SECRET := BOT_SECRET sunny;
     API_BASE_URL := API_BASE_URL sunny;
     container_repr := container_repr sunny |}.

(** As [sunny], but after the placeholder no new message goes through and
    only the second edit does. *)
Definition flaky : env :=
  {| reply_ok := fun n => Nat.eqb n 0;
     edit_ok := fun n => Nat.eqb n 1;
     bot_get_file := bot_get_file sunny;
     file_download := file_download sunny;
     http_post := http_post sunny;
     http_get := http_get sunny;
     loop_time := loop_time sunny;
     epoch_time := epoch_time sunny;
     BOT_SECRET := BOT_SECRET sunny;
     API_BASE_URL := API_BASE_URL sunny;
     container_repr := container_repr sunny |}.

(** As [sunny], but once the placeholder is out nothing more can be shown. *)
Definition fading : env :=
  {| reply_ok := fun n => Nat.eqb n 0;
     edit_ok := fun _ => false;
     bot_get_file := bot_get_file sunny;
     file_download := file_download sunny;
     http_post := http_post sunny;
     http_get := http_get sunny;
     loop_time := loop_time sunny;
     epoch_time := epoch_time sunny;
     BOT_SECRET := BOT_SECRET sunny;
     API_BASE_URL := API_BASE_URL sunny;
     container_repr := container_repr sunny |}.

(** A conversation waiting for the description of [lamp_photo]. *)
Definition described_next : conv :=
  Conv (Some WAITING_FOR_DESCRIPTION) (photo_data lamp_photo).

(** A listing whose second product has no name. *)
Definition nameless_fields : list (string * value) :=
  [ ("linked", VBool true);
    ("products", VList [product "Lamp" 71; VDict [("ecoScore", VInt 64)]]);
    ("stats", VDict [("avgEcoScore", VInt 70)]) ].

(** As [sunny], but the product query answers with that listing. *)
Definition nameless : env :=
  {| reply_ok := reply_ok sunny;
     edit_ok := edit_ok sunny;
     bot_get_file := bot_get_file sunny;
     file_download := file_download sunny;
     http_post := http_post sunny;
     http_get := fun _ _ => HttpJson (VDict nameless_fields);
     loop_time := loop_time sunny;
     epoch_time := epoch_time sunny;
     BOT_SECRET := BOT_SECRET sunny;
     API_BASE_URL := API_BASE_URL sunny;
     container_repr := container_repr sunny |}.

(** As [sunny], but the status query answers "linked" without the stats. *)
Definition half_linked : env :=
  {| reply_ok := reply_ok sunny;
     edit_ok := edit_ok sunny;
     bot_get_file := bot_get_file sunny;
     file_download := file_download sunny;
     http_post := http_post sunny;
     http_get := fun _ _ =>
       HttpJson
         (VDict
            [ ("linked", VBool true);
              ("user", VDict [("name", VStr "Kavish"); ("linkedAt", VStr "2025-08-01")]) ]);
     loop_time := loop_time sunny;
     epoch_time := epoch_time sunny;
     BOT_SECRET := BOT_SECRET sunny;
     API_BASE_URL := API_BASE_URL sunny;
     container_repr := container_repr sunny |}.

(** * Properties *)

(** ** Computations that neither touch the state nor the outside world *)

Lemma pure_ret {A} (a : A) : pure (ret a).
Proof. intros e s. reflexivity. Qed.

Lemma pure_raise {A} (x : exn) : pure (@raise A x).
Proof. intros e s. reflexivity. Qed.

Lemma pure_ask : pure ask.
Proof. intros e s. reflexivity. Qed.

Lemma pure_bind {A B} (m : M A) (k : A -> M B) :
  pure m -> (forall a, pure (k a)) -> pure (bind m k).
Proof.
  intros Hm Hk e s. unfold bind.
  rewrite (Hm e s). rewrite (Hm e (HState ∅ [])). cbn [fst].
  destruct (fst (m e (HState ∅ []))) as [a|x]; [apply Hk | reflexivity].
Qed.

Lemma pure_dict_get d k v : pure (dict_get d k v).
Proof. destruct d; first [apply pure_ret | apply pure_raise]. Qed.

Lemma pure_getitem d k : pure (getitem d k).
Proof.
  destruct d; try apply pure_raise.
  unfold getitem. destruct (dict_lookup k fields); [apply pure_ret | apply pure_raise].
Qed.

Lemma pure_str v : pure (str v).
Proof. apply pure_bind; [apply pure_ask | intros; apply pure_ret]. Qed.

Lemma pure_slice_to n x : pure (slice_to n x).
Proof. destruct x; first [apply pure_ret | apply pure_raise]. Qed.

Lemma pure_for_each {A B} (f : A -> M B) (l : list A) :
  (forall a, pure (f a)) -> pure (for_each f l).
Proof.
  intros Hf. induction l as [|a l IH]; [apply pure_ret|].
  cbn [for_each]. apply pure_bind; [apply Hf|]. intros b.
  apply pure_bind; [apply IH|]. intros bs. apply pure_ret.
Qed.

Create HintDb pure_db.
#[local] Hint Resolve pure_ret pure_raise pure_ask pure_dict_get pure_getitem
  pure_str pure_slice_to : pure_db.

Ltac pure_steps :=
  repeat first
    [ apply pure_bind; [ | intros ? ]
    | solve [ auto with pure_db ] ].

Lemma pure_success_message result : pure (success_message result).
Proof. unfold success_message. pure_steps. Qed.

Lemma pure_error_message result : pure (error_message result).
Proof. unfold error_message. pure_steps. Qed.

Lemma pure_outcome_content result : pure (outcome_content result).
Proof.
  unfold outcome_content. apply pure_bind.
  - destruct (truthy result); auto with pure_db.
  - intros success. destruct (truthy success).
    + apply pure_bind; [apply pure_success_message | intros; apply pure_ret].
    + apply pure_bind; [apply pure_error_message | intros; apply pure_ret].
Qed.

Lemma pure_activity_line activity : pure (activity_line activity).
Proof. unfold activity_line. pure_steps. Qed.

Lemma pure_format_recent_activity activities : pure (format_recent_activity activities).
Proof.
  unfold format_recent_activity. destruct (negb (truthy activities)); [apply pure_ret|].
  apply pure_bind; [apply pure_slice_to|]. intros shown_part.
  apply pure_bind; [apply pure_for_each, pure_activity_line|]. intros; apply pure_ret.
Qed.

Lemma pure_products_of data : pure (products_of data).
Proof.
  unfold products_of. apply pure_bind; [apply pure_dict_get|]. intros linked.
  destruct (truthy linked); pure_steps.
Qed.

Lemma pure_status_of data : pure (status_of data).
Proof.
  unfold status_of. apply pure_bind; [apply pure_dict_get|]. intros linked.
  destruct (truthy linked); [|apply pure_ret].
  do 7 (apply pure_bind; [auto with pure_db | intros ?]).
  apply pure_bind; [apply pure_format_recent_activity | intros; apply pure_ret].
Qed.

(** ** The pieces of a turn, in any environment *)

Lemma render_outcome_split result e s :
  render_outcome result e s =
    bind (outcome_content result) (fun cp => edit_or_reply (fst cp) (snd cp)) e s.
Proof.
  unfold render_outcome, outcome_content, bind.
  destruct ((if truthy result then dict_get result "success" (VBool false)
             else ret result) e s) as [[success|x] s1]; [|reflexivity].
  destruct (truthy success).
  - destruct (success_message result e s1) as [[c|x] s2]; reflexivity.
  - destruct (error_message result e s1) as [[c|x] s2]; reflexivity.
Qed.

Lemma get_photo_data_spec file e s :
  get_photo_data file e s =
    (Ret (photo_image e file),
     HState (user_data s) (trace s ++ photo_events e file)).
Proof.
  unfold get_photo_data, try_except, bind, get_file, download_as_bytearray,
    photo_image, photo_events.
  destruct (bot_get_file e file) as [path|]; cbn.
  - destruct (file_download e path); cbn; rewrite <- app_assoc; reflexivity.
  - reflexivity.
Qed.

Lemma send_to_api_spec telegram_id description image_data e s :
  send_to_api telegram_id description image_data e s =
    (match http_post e (request_url e) (request_body e telegram_id description image_data) with
     | HttpJson data => Ret data
     | HttpRaise => Raise ClientError
     end,
     HState (user_data s)
       (trace s ++ [Post (request_url e) (request_body e telegram_id description image_data)])).
Proof. reflexivity. Qed.

Lemma no_edit_in_fetch e stored : List.filter is_edit (fetch_events e stored) = [].
Proof.
  unfold fetch_events, photo_events.
  destruct (stored !! "photo_file_id") as [file|]; [|reflexivity].
  destruct (bot_get_file e file); reflexivity.
Qed.

Lemma no_post_in_fetch e stored : submissions (fetch_events e stored) = [].
Proof.
  unfold submissions, fetch_events, photo_events.
  destruct (stored !! "photo_file_id") as [file|]; [|reflexivity].
  destruct (bot_get_file e file); reflexivity.
Qed.

Lemma no_post_in_shown ok cp : submissions (shown_events ok cp) = [].
Proof. destruct ok; reflexivity. Qed.

Lemma edits_after_fetch e stored t url body :
  List.filter is_edit (t ++ fetch_events e stored ++ [Post url body]) = List.filter is_edit t.
Proof.
  rewrite !List.filter_app, no_edit_in_fetch. cbn. rewrite app_nil_r. reflexivity.
Qed.

Lemma submissions_app t1 t2 :
  submissions (t1 ++ t2) = (submissions t1 ++ submissions t2)%list.
Proof. apply List.filter_app. Qed.

Lemma submissions_of_turn e u stored description :
  submissions
    (Reply processing_text ReplyKeyboardRemove PlainText true ::
     fetch_events e stored ++
     Post (request_url e) (turn_body e u stored description) ::
     shown_events (edit_ok e 0)
       (shown e (http_post e (request_url e) (turn_body e u stored description)))) =
  [Post (request_url e) (turn_body e u stored description)].
Proof.
  unfold submissions. cbn [List.filter is_post].
  rewrite List.filter_app. fold (submissions (fetch_events e stored)).
  rewrite no_post_in_fetch. cbn [List.filter is_post app].
  fold (submissions (shown_events (edit_ok e 0)
    (shown e (http_post e (request_url e) (turn_body e u stored description))))).
  rewrite no_post_in_shown. reflexivity.
Qed.

Lemma normalize_prompt stored description content next :
  normalize stored description = Prompt content next ->
  next = WAITING_FOR_DESCRIPTION \/ next = WAITING_FOR_IMAGE.
Proof.
  unfold normalize.
  repeat match goal with
         | |- context [if ?b then _ else _] => destruct b
         end; intros H; inversion H; auto.
Qed.

(** Text that opens with a slash is none of the labels. *)
Lemma normalize_command stored name written :
  normalize stored (message_text (Command name written)) =
    Submit (message_text (Command name written)).
Proof. reflexivity. Qed.

Lemma unregistered_state s :
  s <> WAITING_FOR_EVENT -> s <> WAITING_FOR_DESCRIPTION ->
  state_handlers (states conv_handler) s = [].
Proof.
  intros H1 H3. cbn [state_handlers states conv_handler].
  destruct (Z.eqb_spec WAITING_FOR_EVENT s); [congruence|].
  destruct (Z.eqb_spec WAITING_FOR_DESCRIPTION s); [congruence|]. reflexivity.
Qed.

Lemma dialog_handler c u :
  in_dialog c ->
  truthy (message_text (update_message u)) = true ->
  select_handler conv_handler (state c) u =
    Some (MessageHandler TEXT process_lifecycle_event).
Proof.
  intros [Hs|Hs] Ht; rewrite Hs; unfold select_handler, first_match; cbn;
    rewrite Ht; reflexivity.
Qed.

Lemma run_two c u1 e1 u2 e2 :
  run c [(u1, e1); (u2, e2)] =
    (fst (process_update (fst (process_update c u1 e1)) u2 e2),
     (snd (process_update c u1 e1) ++
      snd (process_update (fst (process_update c u1 e1)) u2 e2))%list).
Proof.
  cbn [run]. destruct (process_update c u1 e1) as [c1 t1]. cbn [fst snd].
  destruct (process_update c1 u2 e2) as [c2 t2]. cbn [fst snd].
  rewrite app_nil_r. reflexivity.
Qed.

(** ** Turns in an environment that delivers the bot's messages *)

Section Delivered.

Context (e : env) (Hr : replies_delivered e).

Lemma edit_or_reply_spec content p s :
  edit_or_reply content p e s =
    (Ret tt,
     HState (user_data s)
       (trace s ++
        shown_events (edit_ok e (length (List.filter is_edit (trace s)))) (content, p))).
Proof.
  unfold edit_or_reply, try_except, edit_text, reply_text, shown_events.
  destruct (edit_ok e _); cbn; [reflexivity|].
  rewrite Hr. rewrite <- app_assoc. reflexivity.
Qed.

(** Rendering under the handler's [try]: whatever the response, one
    attempt to edit the placeholder and, if it fails, one new message with
    the same text. *)
Lemma render_or_apologise result s :
  try_except (render_outcome result) (fun _ => edit_or_reply apology PlainText) e s =
    (Ret tt,
     HState (user_data s)
       (trace s ++
        shown_events (edit_ok e (length (List.filter is_edit (trace s))))
          (shown e (HttpJson result)))).
Proof.
  unfold try_except. rewrite render_outcome_split.
  unfold bind. rewrite (pure_outcome_content result e s).
  cbn [shown].
  destruct (fst (outcome_content result e (HState ∅ []))) as [[c p]|x].
  - cbn [fst snd]. rewrite edit_or_reply_spec. reflexivity.
  - rewrite edit_or_reply_spec. reflexivity.
Qed.

Lemma attempt_spec telegram_id description s :
  let body := request_body e telegram_id description (fetched_image e (user_data s)) in
  attempt telegram_id description e s =
    (Ret tt,
     HState (user_data s)
       (trace s ++ fetch_events e (user_data s) ++
        Post (request_url e) body ::
        shown_events (edit_ok e (length (List.filter is_edit (trace s))))
          (shown e (http_post e (request_url e) body)))).
Proof.
  intros body.
  assert (Hfetch : forall s0 : hstate,
    match user_data s0 !! "photo_file_id" with
    | Some file => get_photo_data file
    | None => ret None
    end e s0 =
    (Ret (fetched_image e (user_data s0)),
     HState (user_data s0) (trace s0 ++ fetch_events e (user_data s0)))).
  { intros s0. unfold fetched_image, fetch_events.
    destruct (user_data s0 !! "photo_file_id") as [file|].
    - apply get_photo_data_spec.
    - cbn. rewrite app_nil_r. destruct s0; reflexivity. }
  unfold attempt, try_except, bind. cbn [get_user_data].
  rewrite Hfetch, send_to_api_spec. cbn [user_data trace]. fold body.
  pose proof (edits_after_fetch e (user_data s) (trace s) (request_url e) body) as Hcount.
  rewrite app_assoc in Hcount.
  destruct (http_post e (request_url e) body) as [|result].
  - rewrite edit_or_reply_spec. cbn [user_data trace].
    rewrite Hcount. cbn [shown]. rewrite <- !app_assoc. reflexivity.
  - pose proof (render_or_apologise result
      (HState (user_data s)
         ((trace s ++ fetch_events e (user_data s)) ++ [Post (request_url e) body]))) as H.
    unfold try_except in H. rewrite H. cbn [user_data trace].
    rewrite Hcount. rewrite <- !app_assoc. reflexivity.
Qed.

(** The whole turn once the description is settled: placeholder, optional
    download, one request, one rendering, and the reset. *)
Lemma submit_turn u stored description :
  normalize stored (message_text (update_message u)) = Submit description ->
  process_lifecycle_event u e (HState stored []) =
    (Ret END,
     HState ∅
       (Reply processing_text ReplyKeyboardRemove PlainText true ::
        fetch_events e stored ++
        Post (request_url e) (turn_body e u stored description) ::
        shown_events (edit_ok e 0)
          (shown e (http_post e (request_url e) (turn_body e u stored description))))).
Proof.
  intros Hn.
  unfold process_lifecycle_event, bind at 1. cbn [get_user_data user_data fst snd].
  rewrite Hn.
  unfold bind at 1. unfold reply_text at 1. cbn [trace user_data List.filter length app].
  rewrite Hr.
  unfold bind at 1. rewrite attempt_spec.
  reflexivity.
Qed.

Lemma prompt_turn u stored content next :
  normalize stored (message_text (update_message u)) = Prompt content next ->
  process_lifecycle_event u e (HState stored []) =
    (Ret next, HState stored [Reply content ReplyKeyboardRemove PlainText true]).
Proof.
  intros Hn.
  unfold process_lifecycle_event, bind at 1. cbn [get_user_data user_data fst snd].
  rewrite Hn. unfold bind, reply_text, ret. cbn. rewrite Hr. reflexivity.
Qed.

Lemma handle_photo_turn uid sizes p :
  handle_photo {| effective_user := uid; update_message := Photo (sizes ++ [p]) |} e
      (HState ∅ []) =
    (Ret WAITING_FOR_DESCRIPTION,
     HState (photo_data p)
       [Reply photo_prompt (ReplyKeyboardMarkup photo_keyboard) PlainText true]).
Proof.
  unfold handle_photo, bind, reply_text, last_item. cbn.
  rewrite Hr, last_snoc. reflexivity.
Qed.

Lemma handle_text_only_turn u stored :
  handle_text_only u e (HState stored []) =
    (Ret WAITING_FOR_EVENT,
     HState (<["text_description" := message_text (update_message u)]> stored)
       [Reply text_only_prompt (ReplyKeyboardMarkup text_only_keyboard) PlainText true]).
Proof.
  unfold handle_text_only, bind, reply_text. cbn. rewrite Hr. reflexivity.
Qed.

Lemma cancel_command_turn u stored :
  cancel_command u e (HState stored []) =
    (Ret END, HState ∅ [Reply cancelled_text ReplyKeyboardRemove PlainText true]).
Proof.
  unfold cancel_command, bind, reply_text, clear_user_data. cbn.
  rewrite Hr. reflexivity.
Qed.

Lemma process_update_submit c u description :
  in_dialog c ->
  is_account_command u = false ->
  truthy (message_text (update_message u)) = true ->
  normalize (data c) (message_text (update_message u)) = Submit description ->
  process_update c u e =
    (idle,
     Reply processing_text ReplyKeyboardRemove PlainText true ::
     fetch_events e (data c) ++
     Post (request_url e) (turn_body e u (data c) description) ::
     shown_events (edit_ok e 0)
       (shown e (http_post e (request_url e) (turn_body e u (data c) description)))).
Proof.
  intros Hd Ha Ht Hn. unfold process_update.
  rewrite Ha, (dialog_handler c u Hd Ht). cbn [callback].
  rewrite (submit_turn u (data c) description Hn). reflexivity.
Qed.

Lemma process_update_prompt c u content next :
  in_dialog c ->
  is_account_command u = false ->
  truthy (message_text (update_message u)) = true ->
  normalize (data c) (message_text (update_message u)) = Prompt content next ->
  process_update c u e =
    (Conv (Some next) (data c), [Reply content ReplyKeyboardRemove PlainText true]).
Proof.
  intros Hd Ha Ht Hn. unfold process_update.
  rewrite Ha, (dialog_handler c u Hd Ht). cbn [callback].
  rewrite (prompt_turn u (data c) content next Hn). cbn [user_data trace].
  destruct (normalize_prompt _ _ _ _ Hn) as [->| ->]; reflexivity.
Qed.

(** Only a description settled in one of the two registered states leads
    to a request; every other turn makes none. *)
Lemma submission_needs_dialog c u :
  submissions (snd (process_update c u e)) <> [] ->
  exists description,
    in_dialog c /\ is_account_command u = false /\
    truthy (message_text (update_message u)) = true /\
    normalize (data c) (message_text (update_message u)) = Submit description.
Proof.
  intros Hsub.
  destruct (is_account_command u) eqn:Ha.
  { unfold process_update in Hsub. rewrite Ha in Hsub. contradiction. }
  destruct c as [[s|] stored].
  - destruct (Z.eqb_spec WAITING_FOR_EVENT s) as [<-|Hne1];
      [|destruct (Z.eqb_spec WAITING_FOR_DESCRIPTION s) as [<-|Hne3]].
    1,2: destruct (truthy (message_text (update_message u))) eqn:Ht;
      [ destruct (normalize stored (message_text (update_message u)))
          as [description|content next] eqn:Hn;
        [ exists description; unfold in_dialog; cbn; auto
        | exfalso; apply Hsub;
          rewrite (process_update_prompt _ u content next); auto;
          unfold in_dialog; cbn; auto ]
      | exfalso; apply Hsub; unfold process_update; rewrite Ha;
        unfold select_handler, first_match; cbn; rewrite Ht;
        destruct (update_message u); try reflexivity; discriminate ].
    exfalso. apply Hsub. unfold process_update. rewrite Ha.
    unfold select_handler, first_match. cbn [state].
    rewrite unregistered_state by congruence.
    cbn [List.find fallbacks conv_handler check_update].
    destruct (update_message u) as [sizes|t|command written|]; try reflexivity.
    destruct (String.eqb command "cancel"); [|reflexivity].
    cbn [callback]. rewrite cancel_command_turn. reflexivity.
  - exfalso. apply Hsub. unfold process_update. rewrite Ha.
    unfold select_handler, first_match. cbn.
    destruct (update_message u) as [sizes|t|command written|] eqn:Hm; cbn.
    + destruct sizes as [|p0 sizes]; [reflexivity|]. cbn [callback].
      unfold handle_photo, bind, reply_text, last_item. cbn. rewrite Hr. rewrite Hm.
      cbn [message_photo].
      destruct (last (p0 :: sizes)); reflexivity.
    + destruct (String.eqb t ""); [reflexivity|]. cbn [negb andb callback].
      rewrite handle_text_only_turn. reflexivity.
    + reflexivity.
    + reflexivity.
Qed.

(** /cancel ends the conversation wherever it stands: through
    [cancel_command] where no state handler takes the text, and through a
    submission of the command text in the two registered states, whose
    [filters.TEXT] handler comes first. *)
Lemma cancel_from_any_state c uid written :
  (state c = None -> data c = ∅) ->
  fst (process_update c
         {| effective_user := uid; update_message := Command "cancel" written |} e) = idle.
Proof.
  intros Hc.
  set (u := {| effective_user := uid; update_message := Command "cancel" written |}).
  destruct c as [[s|] stored].
  - destruct (Z.eq_dec s WAITING_FOR_EVENT) as [->|H1];
      [|destruct (Z.eq_dec s WAITING_FOR_DESCRIPTION) as [->|H3]].
    1,2: rewrite (process_update_submit _ u (message_text (Command "cancel" written)));
      unfold in_dialog; cbn [state]; auto.
    unfold process_update. change (is_account_command u) with false. cbv iota.
    unfold select_handler, first_match. cbn [state].
    rewrite unregistered_state by assumption.
    cbn [List.find fallbacks conv_handler check_update u update_message String.eqb
         Ascii.eqb Bool.eqb andb callback].
    rewrite cancel_command_turn. reflexivity.
  - cbn in Hc. rewrite Hc by reflexivity. reflexivity.
Qed.

Lemma photo_starts_afresh uid sizes p :
  process_update idle
      {| effective_user := uid; update_message := Photo (sizes ++ [p]) |} e =
    (Conv (Some WAITING_FOR_DESCRIPTION) (photo_data p),
     [Reply photo_prompt (ReplyKeyboardMarkup photo_keyboard) PlainText true]).
Proof.
  unfold process_update. cbn [is_account_command update_message].
  unfold select_handler, first_match. cbn [state idle entry_points conv_handler List.find
    check_update filter_check update_message message_photo].
  destruct (sizes ++ [p])%list as [|p0 rest] eqn:Hs; [destruct sizes; discriminate|].
  rewrite <- Hs. cbn [callback data idle].
  rewrite handle_photo_turn. reflexivity.
Qed.

Lemma free_text_starts_dialog uid t :
  t <> "" ->
  process_update idle {| effective_user := uid; update_message := Text t |} e =
    (Conv (Some WAITING_FOR_EVENT) (<["text_description" := VStr t]> ∅),
     [Reply text_only_prompt (ReplyKeyboardMarkup text_only_keyboard) PlainText true]).
Proof.
  intros Ht. unfold process_update. cbn [is_account_command update_message].
  unfold select_handler, first_match.
  cbn [state idle entry_points conv_handler List.find check_update filter_check
       update_message message_photo message_text truthy].
  destruct (String.eqb_spec t "") as [->|_]; [contradiction|].
  cbn [negb andb callback data idle].
  rewrite handle_text_only_turn. reflexivity.
Qed.

End Delivered.

Lemma sunny_delivers : replies_delivered sunny.
Proof. intros n. reflexivity. Qed.

Lemma stale_delivers : replies_delivered stale.
Proof. intros n. reflexivity. Qed.

Lemma stormy_delivers : replies_delivered stormy.
Proof. intros n. reflexivity. Qed.

(** ** Reset after a submission or a cancellation *)

(** In a registered state the text handler comes before the fallback, so
    /cancel is taken as a description and submitted. *)
Example cancel_is_submitted_in_dialog :
  process_update
    (Conv (Some WAITING_FOR_EVENT) (<["text_description" := VStr "My lamp stopped working"]> ∅))
    (from_user (Command "cancel" "cancel")) stormy =
  (idle,
   [ Reply processing_text ReplyKeyboardRemove PlainText true;
     Post "https://localhost:3000/api/lifecycle/telegram-event"
       {| telegramId := "42";
          text := VStr "/cancel";
          botToken := VStr "secret";
          timestamp := 5123;
          imageBase64 := None |};
     Edit apology PlainText false;
     Reply apology NoMarkup PlainText true ]).
Proof. vm_compute. reflexivity. Qed.

(** Elsewhere it reaches [cancel_command]. *)
Example cancel_while_waiting_for_image :
  process_update
    (Conv (Some WAITING_FOR_IMAGE) (<["text_description" := VStr "My lamp stopped working"]> ∅))
    (from_user (Command "cancel" "cancel")) stormy =
  (idle, [Reply cancelled_text ReplyKeyboardRemove PlainText true]).
Proof. vm_compute. reflexivity. Qed.

(** C1, at the failing input.  A photo, then a quick-reply label in a turn
    in which the placeholder goes out, the backend records the event, and
    then neither an edit nor a new message gets through.  The fallback
    message of the outer [except] raises, so the lines that clear the data
    and return [END] are not reached: after its submission the conversation
    is still in [WAITING_FOR_DESCRIPTION] with the photo stored, and the
    label sent again is submitted again.  The dialog made two submission
    calls, and only the second turn resets it. *)
Theorem dialog_survives_its_submission :
  let photo_sent := from_user (Photo [thumbnail; lamp_photo]) in
  let label_sent := from_user (Text "🔴 Broken/Not Working") in
  let request :=
    Post "https://localhost:3000/api/lifecycle/telegram-event"
      {| telegramId := "42";
         text := VStr "This product is broken and not working properly";
         botToken := VStr "secret";
         timestamp := 5123;
         imageBase64 := Some "data:image/jpeg;base64,TWFu" |} in
  submissions (snd (run idle [(photo_sent, sunny); (label_sent, fading)])) = [request] /\
  fst (run idle [(photo_sent, sunny); (label_sent, fading)]) =
    Conv (Some WAITING_FOR_DESCRIPTION) (photo_data lamp_photo) /\
  submissions
    (snd (run idle [(photo_sent, sunny); (label_sent, fading); (label_sent, sunny)])) =
    [request; request] /\
  fst (run idle [(photo_sent, sunny); (label_sent, fading); (label_sent, sunny)]) = idle.
Proof.
  cbv zeta. repeat split; vm_compute; reflexivity.
Qed.

(** ** Quick replies *)

(** The labels of the table without their emoji are ordinary text to the
    bot, and a control label is not passed on as a description. *)
Lemma bare_label_is_free_text :
  normalize ∅ (VStr "Broken/Not Working") = Submit (VStr "Broken/Not Working") /\
  normalize ∅ (VStr "Broken/Not Working") <>
    Submit (VStr "This product is broken and not working properly") /\
  normalize ∅ (VStr "Working Great") = Submit (VStr "Working Great") /\
  normalize ∅ (VStr "📝 Custom Description") <> Submit (VStr "📝 Custom Description").
Proof. repeat split; try reflexivity; vm_compute; discriminate. Qed.

(** C2, amended.  Each of the eight labels, written with its emoji as the
    keyboard sends it, is rewritten to its canonical sentence, whatever is
    stored; any text that is none of these eight and none of the three
    control labels is passed on unchanged. *)
Theorem normalize_quick_replies (stored : gmap string value) (description : string) :
  existsb (String.eqb description) (quick_reply_labels ++ control_labels) = false ->
  normalize stored (VStr "🔴 Broken/Not Working") =
    Submit (VStr "This product is broken and not working properly") /\
  normalize stored (VStr "🔧 Fixed/Repaired") =
    Submit (VStr "I fixed and repaired this product, it's working now") /\
  normalize stored (VStr "🛒 Just Bought") =
    Submit (VStr "I just purchased this product") /\
  normalize stored (VStr "♻️ Recycled/Disposed") =
    Submit (VStr "I recycled or disposed of this product") /\
  normalize stored (VStr "🎁 Sold/Gifted") =
    Submit (VStr "I sold or gave away this product") /\
  normalize stored (VStr "⬆️ Upgraded/Modified") =
    Submit (VStr "I upgraded or modified this product") /\
  normalize stored (VStr "🧽 Cleaned/Maintained") =
    Submit (VStr "I cleaned and maintained this product") /\
  normalize stored (VStr "✅ Working Great") =
    Submit (VStr "This product is working great with no issues") /\
  normalize stored (VStr description) = Submit (VStr description).
Proof.
  intros H. repeat (split; [reflexivity|]).
  cbn [existsb app quick_reply_labels control_labels] in H.
  repeat (apply orb_false_elim in H; destruct H as [? H]).
  unfold normalize. cbn [existsb quick_reply_labels py_eq_str].
  repeat match goal with
         | Hq : String.eqb description _ = false |- _ => rewrite Hq; clear Hq
         end.
  reflexivity.
Qed.

Lemma normalize_quick_replies_witness :
  normalize ∅ (VStr "✅ Working Great") =
    Submit (VStr "This product is working great with no issues") /\
  normalize ∅ (VStr "It fell off the desk") = Submit (VStr "It fell off the desk").
Proof.
  pose proof (normalize_quick_replies ∅ "It fell off the desk" eq_refl) as H.
  split; [apply H | apply H].
Defined.

(** ** The promised photo *)

Lemma waiting_for_image_ignores stored u e :
  (forall written, update_message u <> Command "cancel" written) ->
  process_update (Conv (Some WAITING_FOR_IMAGE) stored) u e =
    (Conv (Some WAITING_FOR_IMAGE) stored, []).
Proof.
  intros Hu. unfold process_update.
  destruct (is_account_command u); [reflexivity|].
  unfold select_handler, first_match. cbn.
  destruct (update_message u) as [sizes|t|command written|]; try reflexivity.
  destruct (String.eqb_spec command "cancel") as [->|Hne]; [|reflexivity].
  destruct (Hu written). reflexivity.
Qed.

(** C3, at the failing input.  After free text and the promise of a photo
    the conversation is in [WAITING_FOR_IMAGE], a state for which
    [setup_handlers] registers no handler: the photo and the description
    that follow reach no handler, nothing is submitted, and the first text
    stays stored.  The same holds for every photo and every text sent in
    that state. *)
Theorem promised_photo_is_never_submitted :
  run idle
    [ (from_user (Text "My lamp stopped working"), sunny);
      (from_user (Text "📸 I'll send a photo"), sunny);
      (from_user (Photo [thumbnail; lamp_photo]), sunny);
      (from_user (Text "It fell off the desk"), sunny) ] =
    (Conv (Some WAITING_FOR_IMAGE)
       (<["text_description" := VStr "My lamp stopped working"]> ∅),
     [ Reply text_only_prompt (ReplyKeyboardMarkup text_only_keyboard) PlainText true;
       Reply "Perfect! Please send a photo of your product:" ReplyKeyboardRemove
         PlainText true ]) /\
  (forall stored uid sizes e,
     process_update (Conv (Some WAITING_FOR_IMAGE) stored)
       {| effective_user := uid; update_message := Photo sizes |} e =
     (Conv (Some WAITING_FOR_IMAGE) stored, [])) /\
  (forall stored uid t e,
     process_update (Conv (Some WAITING_FOR_IMAGE) stored)
       {| effective_user := uid; update_message := Text t |} e =
     (Conv (Some WAITING_FOR_IMAGE) stored, [])).
Proof.
  split; [vm_compute; reflexivity|].
  split; intros; apply waiting_for_image_ignores; intros written; discriminate.
Qed.

(** ** The submission client *)

(** [send_to_api] hands a failing request to its caller as an exception. *)
Lemma send_to_api_raises :
  send_to_api "42" (VStr "My lamp stopped working") None stormy (HState ∅ []) =
    (Raise ClientError,
     HState ∅
       [Post "https://localhost:3000/api/lifecycle/telegram-event"
          {| telegramId := "42";
             text := VStr "My lamp stopped working";
             botToken := VStr "secret";
             timestamp := 5123;
             imageBase64 := None |}]) /\
  forall outcome s, send_to_api "42" (VStr "My lamp stopped working") None stormy (HState ∅ [])
    <> (Ret outcome, s).
Proof. split; [reflexivity | intros outcome s H; discriminate]. Qed.

(** The timestamp of every request is the event loop's clock, truncated. *)
Lemma timestamp_reads_loop_clock telegram_id description image_data e s :
  exists body,
    trace (snd (send_to_api telegram_id description image_data e s)) =
      (trace s ++ [Post (request_url e) body])%list /\
    timestamp body = int_of_float (loop_time e).
Proof.
  exists (request_body e telegram_id description image_data).
  rewrite send_to_api_spec. split; reflexivity.
Qed.

(** C5, at the failing input.  With the wall clock at 1700000000 s since the
    epoch and the event loop's clock at 5123.7 s, the request carries 5123:
    an integer sampled when the request is built, but read from the loop's
    monotonic clock, not from the wall clock. *)
Theorem timestamp_is_not_epoch_time :
  snd (send_to_api "42" (VStr "My lamp stopped working") None sunny (HState ∅ [])) =
    HState ∅
      [Post "https://localhost:3000/api/lifecycle/telegram-event"
         {| telegramId := "42";
            text := VStr "My lamp stopped working";
            botToken := VStr "secret";
            timestamp := 5123;
            imageBase64 := None |}] /\
  int_of_float (loop_time sunny) = 5123%Z /\
  int_of_float (epoch_time sunny) = 1700000000%Z.
Proof. repeat split. Qed.

(** ** Text only *)

(** C6.  Free text followed by "Continue with text only" makes exactly one
    request, whose description is the free text and which carries no image,
    and the conversation is idle again.  In a registered state whose data
    hold no free text, the same label is submitted as the description
    itself. *)
Theorem text_only_submits_stored_text (uid : Z) (t : string) (e1 e2 : env)
    (c : conv) (e3 : env) :
  t <> "" ->
  replies_delivered e1 ->
  replies_delivered e2 ->
  in_dialog c ->
  data c !! "text_description" = None ->
  replies_delivered e3 ->
  (exists body,
     fst (run idle
            [ ({| effective_user := uid; update_message := Text t |}, e1);
              ({| effective_user := uid;
                  update_message := Text "📝 Continue with text only" |}, e2) ]) = idle /\
     submissions
       (snd (run idle
               [ ({| effective_user := uid; update_message := Text t |}, e1);
                 ({| effective_user := uid;
                     update_message := Text "📝 Continue with text only" |}, e2) ])) =
       [Post (request_url e2) body] /\
     text body = VStr t /\
     imageBase64 body = None /\
     telegramId body = pretty uid) /\
  (exists body,
     fst (process_update c
            {| effective_user := uid;
               update_message := Text "📝 Continue with text only" |} e3) = idle /\
     submissions
       (snd (process_update c
               {| effective_user := uid;
                  update_message := Text "📝 Continue with text only" |} e3)) =
       [Post (request_url e3) body] /\
     text body = VStr "📝 Continue with text only").
Proof.
  intros Ht Hr1 Hr2 Hd Hnone Hr3. split.
  - set (u1 := {| effective_user := uid; update_message := Text t |}).
    set (u2 := {| effective_user := uid; update_message := Text "📝 Continue with text only" |}).
    set (c1 := Conv (Some WAITING_FOR_EVENT) (<["text_description" := VStr t]> ∅)).
    assert (H1 : process_update idle u1 e1 =
      (c1, [Reply text_only_prompt (ReplyKeyboardMarkup text_only_keyboard) PlainText true])).
    { apply free_text_starts_dialog; assumption. }
    assert (H2 : process_update c1 u2 e2 =
      (idle,
       Reply processing_text ReplyKeyboardRemove PlainText true ::
       fetch_events e2 (data c1) ++
       Post (request_url e2) (turn_body e2 u2 (data c1) (VStr t)) ::
       shown_events (edit_ok e2 0)
         (shown e2 (http_post e2 (request_url e2) (turn_body e2 u2 (data c1) (VStr t)))))).
    { apply process_update_submit; try assumption; try reflexivity.
      left; reflexivity. }
    exists (turn_body e2 u2 (data c1) (VStr t)).
    fold u1 u2. rewrite run_two, H1. cbn [fst snd]. rewrite H2. cbn [fst snd].
    split; [reflexivity|]. split.
    + rewrite submissions_app, submissions_of_turn. reflexivity.
    + unfold turn_body, request_body, fetched_image, c1. cbn [data text telegramId imageBase64].
      rewrite lookup_insert_ne by discriminate. rewrite lookup_empty.
      repeat split.
  - set (u := {| effective_user := uid; update_message := Text "📝 Continue with text only" |}).
    assert (Hn : normalize (data c) (message_text (update_message u)) =
                 Submit (VStr "📝 Continue with text only")).
    { change (normalize (data c) (message_text (update_message u)))
        with (Submit (default (VStr "📝 Continue with text only")
                (data c !! "text_description"))).
      rewrite Hnone. reflexivity. }
    exists (turn_body e3 u (data c) (VStr "📝 Continue with text only")).
    rewrite (process_update_submit e3 Hr3 c u _ Hd eq_refl eq_refl Hn).
    cbn [fst snd]. rewrite submissions_of_turn. repeat split.
Qed.

(** The same on a conversation whose backend is down, and on one that
    started with a photo. *)
Lemma text_only_submits_stored_text_witness :
  (exists body,
     fst (run idle
            [ (from_user (Text "My lamp stopped working"), sunny);
              (from_user (Text "📝 Continue with text only"), stormy) ]) = idle /\
     submissions
       (snd (run idle
               [ (from_user (Text "My lamp stopped working"), sunny);
                 (from_user (Text "📝 Continue with text only"), stormy) ])) =
       [Post (request_url stormy) body] /\
     text body = VStr "My lamp stopped working" /\
     imageBase64 body = None /\
     telegramId body = "42") /\
  (exists body,
     fst (process_update (Conv (Some WAITING_FOR_DESCRIPTION) (photo_data lamp_photo))
            (from_user (Text "📝 Continue with text only")) sunny) = idle /\
     submissions
       (snd (process_update (Conv (Some WAITING_FOR_DESCRIPTION) (photo_data lamp_photo))
               (from_user (Text "📝 Continue with text only")) sunny)) =
       [Post (request_url sunny) body] /\
     text body = VStr "📝 Continue with text only").
Proof.
  apply (text_only_submits_stored_text 42 "My lamp stopped working" sunny stormy
           (Conv (Some WAITING_FOR_DESCRIPTION) (photo_data lamp_photo)) sunny).
  - discriminate.
  - exact sunny_delivers.
  - exact stormy_delivers.
  - right. reflexivity.
  - vm_compute. reflexivity.
  - exact sunny_delivers.
Defined.

(** ** Photo download *)

(** C7.  When the file reference cannot be resolved or the download fails,
    [get_photo_data] returns [None] and raises nothing, and the turn goes
    on: it makes its one request, with the description and without an
    image, and the conversation ends idle. *)
Theorem fetch_failure_degrades_to_text_only (c : conv) (u : update) (e : env)
    (file : value) (description : value) (s : hstate) :
  (bot_get_file e file = None \/
   exists path, bot_get_file e file = Some path /\ file_download e path = None) ->
  in_dialog c ->
  is_account_command u = false ->
  truthy (message_text (update_message u)) = true ->
  data c !! "photo_file_id" = Some file ->
  normalize (data c) (message_text (update_message u)) = Submit description ->
  replies_delivered e ->
  fst (get_photo_data file e s) = Ret None /\
  user_data (snd (get_photo_data file e s)) = user_data s /\
  exists body,
    fst (process_update c u e) = idle /\
    submissions (snd (process_update c u e)) = [Post (request_url e) body] /\
    imageBase64 body = None /\
    text body = description.
Proof.
  intros Hfail Hd Ha Ht Hfile Hn Hr.
  assert (Himg : photo_image e file = None).
  { unfold photo_image. destruct Hfail as [->|(path & -> & ->)]; reflexivity. }
  rewrite get_photo_data_spec. cbn [fst snd user_data]. rewrite Himg.
  split; [reflexivity|]. split; [reflexivity|].
  exists (turn_body e u (data c) description).
  rewrite (process_update_submit e Hr c u description Hd Ha Ht Hn). cbn [fst snd].
  rewrite submissions_of_turn.
  unfold turn_body, request_body, fetched_image. rewrite Hfile, Himg.
  repeat split.
Qed.

Lemma fetch_failure_degrades_to_text_only_witness :
  fst (get_photo_data (VStr "AgACAgQ") stormy (HState (photo_data lamp_photo) [])) = Ret None /\
  process_update (Conv (Some WAITING_FOR_DESCRIPTION) (photo_data lamp_photo))
    (from_user (Text "🔧 Fixed/Repaired")) stormy =
  (idle,
   [ Reply processing_text ReplyKeyboardRemove PlainText true;
     GetFile (VStr "AgACAgQ");
     Post "https://localhost:3000/api/lifecycle/telegram-event"
       {| telegramId := "42";
          text := VStr "I fixed and repaired this product, it's working now";
          botToken := VStr "secret";
          timestamp := 5123;
          imageBase64 := None |};
     Edit apology PlainText false;
     Reply apology NoMarkup PlainText true ]).
Proof.
  split.
  - exact (proj1 (fetch_failure_degrades_to_text_only
      (Conv (Some WAITING_FOR_DESCRIPTION) (photo_data lamp_photo))
      (from_user (Text "🔧 Fixed/Repaired")) stormy (VStr "AgACAgQ")
      (VStr "I fixed and repaired this product, it's working now")
      (HState (photo_data lamp_photo) [])
      (or_introl eq_refl) (or_intror eq_refl) eq_refl eq_refl eq_refl eq_refl
      stormy_delivers)).
  - vm_compute. reflexivity.
Defined.

(** ** Rendering *)

(** C8, at the failing input.  "Continue with text only" in a turn in which
    the placeholder goes out, the backend records the event, and then
    neither an edit nor a new message gets through.  The failed edit is
    followed by a new message with the same text and parse mode, as the
    claim says; that message is refused, the outer [except] tries the
    apology the same way, and its new message, which nothing guards,
    raises.  The turn is aborted: the error handler is what runs next, and
    the conversation is not reset but keeps its state and its text. *)
Theorem refused_fallback_aborts_the_turn :
  let waiting :=
    Conv (Some WAITING_FOR_EVENT)
      (<["text_description" := VStr "My lamp stopped working"]> ∅) in
  let content := fst (shown fading (HttpJson lamp_response)) in
  process_update waiting (from_user (Text "📝 Continue with text only")) fading =
    (waiting,
     [ Reply processing_text ReplyKeyboardRemove PlainText true;
       Post "https://localhost:3000/api/lifecycle/telegram-event"
         {| telegramId := "42";
            text := VStr "My lamp stopped working";
            botToken := VStr "secret";
            timestamp := 5123;
            imageBase64 := None |};
       Edit content MARKDOWN false;
       Reply content NoMarkup MARKDOWN false;
       Edit apology PlainText false;
       Reply apology NoMarkup PlainText false;
       Reply error_text NoMarkup PlainText false ]) /\
  fst (process_lifecycle_event (from_user (Text "📝 Continue with text only")) fading
         (HState (data waiting) [])) = Raise TelegramError /\
  contains content "Lamp".
Proof.
  cbv zeta. split; [vm_compute; reflexivity|]. split; [vm_compute; reflexivity|].
  exists (nl +:+ "✅ *Lifecycle Event Recorded!*" +:+ nl +:+ nl +:+ "*Product:* ").
  eexists. vm_compute. reflexivity.
Qed.

(** C9.  For the sample success response the text rendered is the one
    below; it contains "Lamp", "Repaired", "87" and "High confidence
    match", and it is what a turn shows in place of the placeholder. *)
Theorem lamp_success_is_rendered (e : env) (s : hstate) :
  let content :=
    nl +:+ "✅ *Lifecycle Event Recorded!*" +:+ nl +:+ nl +:+
    "*Product:* Lamp" +:+ nl +:+
    "*Event:* Repaired" +:+ nl +:+
    "*Match Confidence:* 87%" +:+ nl +:+ nl +:+
    "High confidence match" +:+ nl +:+ nl +:+
    "*Description:* Fixed the lamp" +:+ nl +:+ nl +:+
    "🌱 Check your Life app dashboard to see the full timeline!" +:+ nl +:+
    "                " in
  success_message lamp_response e s = (Ret content, s) /\
  shown e (HttpJson lamp_response) = (content, MARKDOWN) /\
  render_outcome lamp_response e s = edit_or_reply content MARKDOWN e s /\
  snd (process_update (Conv (Some WAITING_FOR_DESCRIPTION) (photo_data lamp_photo))
         (from_user (Text "🔧 Fixed/Repaired")) sunny) =
    [ Reply processing_text ReplyKeyboardRemove PlainText true;
      GetFile (VStr "AgACAgQ");
      Download "photos/file_1.jpg";
      Post "https://localhost:3000/api/lifecycle/telegram-event"
        {| telegramId := "42";
           text := VStr "I fixed and repaired this product, it's working now";
           botToken := VStr "secret";
           timestamp := 5123;
           imageBase64 := Some "data:image/jpeg;base64,TWFu" |};
      Edit content MARKDOWN true ] /\
  contains content "Lamp" /\
  contains content "Repaired" /\
  contains content "87" /\
  contains content "High confidence match".
Proof.
  intros content.
  split; [reflexivity|]. split; [reflexivity|]. split; [reflexivity|].
  split; [vm_compute; reflexivity|].
  split; [|split; [|split]].
  - exists (nl +:+ "✅ *Lifecycle Event Recorded!*" +:+ nl +:+ nl +:+ "*Product:* ").
    eexists. vm_compute. reflexivity.
  - exists (nl +:+ "✅ *Lifecycle Event Recorded!*" +:+ nl +:+ nl +:+
            "*Product:* Lamp" +:+ nl +:+ "*Event:* ").
    eexists. vm_compute. reflexivity.
  - exists (nl +:+ "✅ *Lifecycle Event Recorded!*" +:+ nl +:+ nl +:+
            "*Product:* Lamp" +:+ nl +:+ "*Event:* Repaired" +:+ nl +:+
            "*Match Confidence:* ").
    eexists. vm_compute. reflexivity.
  - exists (nl +:+ "✅ *Lifecycle Event Recorded!*" +:+ nl +:+ nl +:+
            "*Product:* Lamp" +:+ nl +:+ "*Event:* Repaired" +:+ nl +:+
            "*Match Confidence:* 87%" +:+ nl +:+ nl).
    eexists. vm_compute. reflexivity.
Qed.

(** ** The account queries *)

(** [get_user_products] always returns: the record built from the response,
    or the not-linked default when anything raised. *)
Lemma get_user_products_spec telegram_id e s :
  get_user_products telegram_id e s =
    (Ret match http_get e (products_url e) telegram_id with
         | HttpRaise => products_not_linked
         | HttpJson data =>
             match fst (products_of data e (HState ∅ [])) with
             | Ret info => info
             | Raise _ => products_not_linked
             end
         end,
     HState (user_data s) (trace s ++ [Get (products_url e) telegram_id])).
Proof.
  unfold get_user_products, try_except, bind at 1, ask. unfold bind at 1, session_get.
  destruct (http_get e (products_url e) telegram_id) as [|data]; [reflexivity|].
  rewrite (pure_products_of data e).
  destruct (fst (products_of data e (HState ∅ []))); reflexivity.
Qed.

Lemma check_user_status_spec telegram_id e s :
  check_user_status telegram_id e s =
    (Ret match http_get e (status_url e) telegram_id with
         | HttpRaise => status_error
         | HttpJson data =>
             match fst (status_of data e (HState ∅ [])) with
             | Ret info => info
             | Raise _ => status_error
             end
         end,
     HState (user_data s) (trace s ++ [Get (status_url e) telegram_id])).
Proof.
  unfold check_user_status, try_except, bind at 1, ask. unfold bind at 1, session_get.
  destruct (http_get e (status_url e) telegram_id) as [|data]; [reflexivity|].
  rewrite (pure_status_of data e).
  destruct (fst (status_of data e (HState ∅ []))); reflexivity.
Qed.

Lemma products_of_linked data e s info :
  products_of data e s = (Ret info, s) ->
  products_linked info = true ->
  exists fields listed,
    data = VDict fields /\ dict_lookup "products" fields = Some listed /\
    fst (slice_to 10 listed e s) = Ret (products info).
Proof.
  unfold products_of, bind at 1.
  destruct data as [| | | | | |fields]; try discriminate.
  cbn [dict_get ret].
  destruct (truthy _); [|intros H; inversion H; discriminate].
  unfold bind at 1. cbn [getitem].
  destruct (dict_lookup "products" fields) as [listed|] eqn:Hlist; [|discriminate].
  cbn [ret]. unfold bind at 1.
  pose proof (pure_slice_to 10 listed e s) as Hp. rewrite Hp.
  destruct (fst (slice_to 10 listed e (HState ∅ []))) as [first_ten|x] eqn:Hs;
    [|discriminate].
  unfold bind at 1.
  destruct (dict_lookup "stats" fields) as [stats|]; [|discriminate].
  cbn [ret]. unfold bind at 1.
  destruct (getitem stats "avgEcoScore" e s) as [[score|x] s2]; [|discriminate].
  intros H Hl. inversion H; subst. exists fields, listed.
  split; [reflexivity|]. split; [exact Hlist|]. rewrite Hp. reflexivity.
Qed.

(** C10.  [get_user_products] and [check_user_status] never raise.  When the
    listing is reported as linked, the products kept are the first ten of
    the list the backend returned, so at most ten, and [products_command]
    builds its answer from the kept record alone; when a query fails, or
    anything raises while the response is read, the result is the
    not-linked default. *)
Theorem products_are_first_ten_and_queries_never_raise (u : update)
    (e : env) (s : hstate) (items : list value) (fields : list (string * value)) :
  let telegram_id := pretty (effective_user u) in
  http_get e (products_url e) telegram_id = HttpJson (VDict fields) ->
  dict_lookup "products" fields = Some (VList items) ->
  (exists info,
     get_user_products telegram_id e s =
       (Ret info, HState (user_data s) (trace s ++ [Get (products_url e) telegram_id])) /\
     (products_linked info = true ->
      products info = VList (firstn 10 items) /\ (length (firstn 10 items) <= 10)%nat) /\
     (products_linked info = false -> info = products_not_linked) /\
     products_command u e s =
       show_products info e
         (HState (user_data s) (trace s ++ [Get (products_url e) telegram_id]))) /\
  (forall e' s',
     exists info,
       get_user_products telegram_id e' s' =
         (Ret info, HState (user_data s') (trace s' ++ [Get (products_url e') telegram_id])) /\
       (http_get e' (products_url e') telegram_id = HttpRaise -> info = products_not_linked) /\
       (forall data x,
          http_get e' (products_url e') telegram_id = HttpJson data ->
          fst (products_of data e' (HState ∅ [])) = Raise x ->
          info = products_not_linked)) /\
  (forall e' s',
     exists info,
       check_user_status telegram_id e' s' =
         (Ret info, HState (user_data s') (trace s' ++ [Get (status_url e') telegram_id])) /\
       (http_get e' (status_url e') telegram_id = HttpRaise ->
        info = status_error /\ status_linked info = false) /\
       (forall data x,
          http_get e' (status_url e') telegram_id = HttpJson data ->
          fst (status_of data e' (HState ∅ [])) = Raise x ->
          info = status_error /\ status_linked info = false)).
Proof.
  intros telegram_id Hget Hitems. split; [|split].
  - eexists. split; [apply get_user_products_spec|].
    refine ((fun H => conj (proj1 H) (conj (proj2 H) _)) _);
      [unfold products_command, bind; fold telegram_id;
       rewrite get_user_products_spec; reflexivity|].
    rewrite Hget.
    destruct (fst (products_of (VDict fields) e (HState ∅ []))) as [info|x] eqn:Hp.
    + split.
      * intros Hl.
        assert (Hrun : products_of (VDict fields) e (HState ∅ []) = (Ret info, HState ∅ [])).
        { rewrite (pure_products_of (VDict fields) e (HState ∅ [])), Hp. reflexivity. }
        destruct (products_of_linked _ _ _ _ Hrun Hl) as (fields' & listed & Hf & Ha & Hs).
        inversion Hf; subst fields'. rewrite Hitems in Ha. inversion Ha; subst listed.
        cbn in Hs. inversion Hs. split; [reflexivity|]. apply firstn_le_length.
      * intros Hl. revert Hp. unfold products_of, bind at 1. cbn [dict_get ret].
        destruct (truthy _).
        -- intros Hp. exfalso. revert Hp Hl. unfold bind.
           repeat match goal with
                  | |- context [match ?m e ?s0 with _ => _ end] =>
                      destruct (m e s0) as [[?|?] ?]
                  end; cbn; intros Hp; inversion Hp; subst; discriminate.
        -- cbn. intros Hp. inversion Hp. reflexivity.
    + split; [discriminate | reflexivity].
  - intros e' s'. eexists. split; [apply get_user_products_spec|]. split.
    + intros ->. reflexivity.
    + intros data x -> ->. reflexivity.
  - intros e' s'. eexists. split; [apply check_user_status_spec|]. split.
    + intros ->. split; reflexivity.
    + intros data x -> ->. split; reflexivity.
Qed.

(** Twelve products listed: ten are kept and ten are shown. *)
Lemma products_are_first_ten_and_queries_never_raise_witness :
  (exists info,
     get_user_products "42" sunny (HState ∅ []) =
       (Ret info, HState ∅ [Get "https://localhost:3000/api/telegram/products" "42"]) /\
     products info =
       VList
         [ product "Lamp" 71; product "Laptop" 64; product "Kettle" 80;
           product "Phone" 58; product "Bicycle" 95; product "Toaster" 77;
           product "Headphones" 62; product "Vacuum" 69; product "Chair" 88;
           product "Blender" 73 ]) /\
  products_command (from_user (Command "products" "products")) sunny (HState ∅ []) =
    (Ret tt,
     HState ∅
       [ Get "https://localhost:3000/api/telegram/products" "42";
         Reply
           (products_message
              (join nl
                 [ "• Lamp (Score: 71/100)"; "• Laptop (Score: 64/100)";
                   "• Kettle (Score: 80/100)"; "• Phone (Score: 58/100)";
                   "• Bicycle (Score: 95/100)"; "• Toaster (Score: 77/100)";
                   "• Headphones (Score: 62/100)"; "• Vacuum (Score: 69/100)";
                   "• Chair (Score: 88/100)"; "• Blender (Score: 73/100)" ])
              10 "70")
           NoMarkup MARKDOWN true ]) /\
  check_user_status "42" sunny (HState ∅ []) =
    (Ret status_error, HState ∅ [Get "https://localhost:3000/api/telegram/status" "42"]).
Proof.
  destruct (products_are_first_ten_and_queries_never_raise
              (from_user (Command "products" "products")) sunny (HState ∅ [])
              catalogue listing_fields eq_refl eq_refl)
    as ((info & Hrun & Hten & _ & _) & _ & _).
  split; [|split].
  - exists info. split; [exact Hrun|].
    assert (Hl : products_linked info = true).
    { vm_compute in Hrun. inversion Hrun. reflexivity. }
    exact (proj1 (Hten Hl)).
  - vm_compute. reflexivity.
  - vm_compute. reflexivity.
Defined.

(** ** Turns in any environment *)

Lemma edit_or_reply_any content p e s :
  let r := edit_or_reply_events e (length (List.filter is_edit (trace s)))
             (length (List.filter is_reply (trace s))) (content, p) in
  edit_or_reply content p e s =
    (if snd r then Ret tt else Raise TelegramError,
     HState (user_data s) (trace s ++ fst r)).
Proof.
  unfold edit_or_reply, try_except, edit_text, reply_text, edit_or_reply_events.
  destruct (edit_ok e _); cbn [fst snd user_data trace]; [reflexivity|].
  rewrite List.filter_app. cbn [List.filter is_reply]. rewrite app_nil_r.
  rewrite <- app_assoc. reflexivity.
Qed.

Lemma no_reply_in_fetch e stored : List.filter is_reply (fetch_events e stored) = [].
Proof.
  unfold fetch_events, photo_events.
  destruct (stored !! "photo_file_id") as [file|]; [|reflexivity].
  destruct (bot_get_file e file); reflexivity.
Qed.

Lemma render_or_apologise_any result e s :
  let r := rendering e (length (List.filter is_edit (trace s)))
             (length (List.filter is_reply (trace s))) (HttpJson result) in
  try_except (render_outcome result) (fun _ => edit_or_reply apology PlainText) e s =
    (if snd r then Ret tt else Raise TelegramError,
     HState (user_data s) (trace s ++ fst r)).
Proof.
  unfold try_except. rewrite render_outcome_split.
  unfold bind. rewrite (pure_outcome_content result e s). cbn [rendering].
  destruct (fst (outcome_content result e (HState ∅ []))) as [[c p]|x].
  - cbn [fst snd]. rewrite edit_or_reply_any. cbv zeta.
    unfold edit_or_reply_events.
    destruct (edit_ok e (length (List.filter is_edit (trace s)))) eqn:He;
      cbn [fst snd]; [reflexivity|].
    destruct (reply_ok e (length (List.filter is_reply (trace s)))) eqn:Hp;
      cbn [fst snd]; [reflexivity|].
    rewrite edit_or_reply_any. cbv zeta. unfold edit_or_reply_events.
    cbn [user_data trace].
    rewrite !List.filter_app. cbn [List.filter is_edit is_reply].
    rewrite !length_app. cbn [length].
    replace (length (List.filter is_edit (trace s)) + 1)%nat
      with (S (length (List.filter is_edit (trace s)))) by lia.
    replace (length (List.filter is_reply (trace s)) + 1)%nat
      with (S (length (List.filter is_reply (trace s)))) by lia.
    destruct (edit_ok e (S _)); cbn [fst snd]; rewrite <- app_assoc; reflexivity.
  - rewrite edit_or_reply_any. reflexivity.
Qed.

Lemma attempt_any telegram_id description e s :
  let body := request_body e telegram_id description (fetched_image e (user_data s)) in
  let r := rendering e (length (List.filter is_edit (trace s)))
             (length (List.filter is_reply (trace s)))
             (http_post e (request_url e) body) in
  attempt telegram_id description e s =
    (if snd r then Ret tt else Raise TelegramError,
     HState (user_data s)
       (trace s ++ fetch_events e (user_data s) ++ Post (request_url e) body :: fst r)).
Proof.
  intros body r.
  assert (Hfetch : forall s0 : hstate,
    match user_data s0 !! "photo_file_id" with
    | Some file => get_photo_data file
    | None => ret None
    end e s0 =
    (Ret (fetched_image e (user_data s0)),
     HState (user_data s0) (trace s0 ++ fetch_events e (user_data s0)))).
  { intros s0. unfold fetched_image, fetch_events.
    destruct (user_data s0 !! "photo_file_id") as [file|].
    - apply get_photo_data_spec.
    - cbn. rewrite app_nil_r. destruct s0; reflexivity. }
  assert (Hedits : List.filter is_edit
      ((trace s ++ fetch_events e (user_data s)) ++ [Post (request_url e) body]) =
      List.filter is_edit (trace s)).
  { rewrite !List.filter_app, no_edit_in_fetch. cbn. rewrite !app_nil_r. reflexivity. }
  assert (Hreplies : List.filter is_reply
      ((trace s ++ fetch_events e (user_data s)) ++ [Post (request_url e) body]) =
      List.filter is_reply (trace s)).
  { rewrite !List.filter_app, no_reply_in_fetch. cbn. rewrite !app_nil_r. reflexivity. }
  unfold attempt, try_except, bind. cbn [get_user_data].
  rewrite Hfetch, send_to_api_spec. cbn [user_data trace]. fold body.
  subst r. destruct (http_post e (request_url e) body) as [|result].
  - rewrite edit_or_reply_any. cbn [user_data trace rendering].
    rewrite Hedits, Hreplies. rewrite <- !app_assoc. reflexivity.
  - pose proof (render_or_apologise_any result e
      (HState (user_data s)
         ((trace s ++ fetch_events e (user_data s)) ++ [Post (request_url e) body]))) as H.
    unfold try_except in H. cbn [user_data trace] in H.
    rewrite Hedits, Hreplies in H. rewrite H. rewrite <- !app_assoc. reflexivity.
Qed.

(** A submission turn, whatever the environment does. *)
Lemma submit_turn_any u e stored description :
  normalize stored (message_text (update_message u)) = Submit description ->
  process_lifecycle_event u e (HState stored []) =
    (if snd (submit_events e u stored description) then Ret END else Raise TelegramError,
     HState (if snd (submit_events e u stored description) then ∅ else stored)
       (fst (submit_events e u stored description))).
Proof.
  intros Hn.
  unfold process_lifecycle_event, bind at 1. cbn [get_user_data user_data fst snd].
  rewrite Hn.
  unfold bind at 1. unfold reply_text at 1. cbn [trace user_data List.filter length app].
  unfold submit_events.
  destruct (reply_ok e 0); [|reflexivity].
  unfold bind at 1. rewrite attempt_any. cbn [user_data trace List.filter is_edit is_reply length].
  fold (turn_body e u stored description).
  destruct (snd (rendering e 0 1 _)); reflexivity.
Qed.

Lemma process_update_submit_any c u e description :
  in_dialog c ->
  is_account_command u = false ->
  truthy (message_text (update_message u)) = true ->
  normalize (data c) (message_text (update_message u)) = Submit description ->
  process_update c u e =
    if snd (submit_events e u (data c) description)
    then (idle, fst (submit_events e u (data c) description))
    else (c,
          (fst (submit_events e u (data c) description) ++
           [error_reply e (fst (submit_events e u (data c) description))])%list).
Proof.
  intros Hd Ha Ht Hn. unfold process_update.
  rewrite Ha, (dialog_handler c u Hd Ht). cbn [callback].
  rewrite (submit_turn_any u e (data c) description Hn).
  destruct (snd (submit_events e u (data c) description)); [reflexivity|].
  unfold error_handler, reply_text, error_reply. cbn [snd user_data trace].
  destruct c; reflexivity.
Qed.

(** ** Transport failures of the submission call *)

(** C4, amended.  When the request fails at the transport level,
    [send_to_api] itself raises; it is the [try] of
    [process_lifecycle_event] around it that catches the exception.  In
    every environment in which the placeholder went out, so that the call
    is made at all, the turn makes its one request and tries the apology in
    place of the placeholder, then as a new message if the edit fails.
    Once the apology is shown, either way, the handler returns [END] and
    the conversation is idle with empty data.  What can leave the handler
    is never the fault of the request: it is the refusal of the apology's
    own new message, after which the conversation is as it was. *)
Theorem transport_failure_caught_by_handler (c : conv) (u : update) (e : env)
    (description : value) (image_data : option string) (s : hstate) :
  (forall url body, http_post e url body = HttpRaise) ->
  in_dialog c ->
  is_account_command u = false ->
  truthy (message_text (update_message u)) = true ->
  normalize (data c) (message_text (update_message u)) = Submit description ->
  reply_ok e 0 = true ->
  fst (send_to_api (pretty (effective_user u)) description image_data e s) =
    Raise ClientError /\
  fst (process_lifecycle_event u e (HState (data c) [])) =
    (if edit_ok e 0 || reply_ok e 1 then Ret END else Raise TelegramError) /\
  process_update c u e =
    (if edit_ok e 0 || reply_ok e 1 then idle else c,
     Reply processing_text ReplyKeyboardRemove PlainText true ::
     fetch_events e (data c) ++
     Post (request_url e) (turn_body e u (data c) description) ::
     Edit apology PlainText (edit_ok e 0) ::
     (if edit_ok e 0 then []
      else Reply apology NoMarkup PlainText (reply_ok e 1) ::
           (if reply_ok e 1 then []
            else [Reply error_text NoMarkup PlainText (reply_ok e 2)]))).
Proof.
  intros Hdown Hd Ha Ht Hn Hp. split; [|split].
  - rewrite send_to_api_spec, Hdown. reflexivity.
  - rewrite (submit_turn_any u e (data c) description Hn).
    unfold submit_events, rendering, edit_or_reply_events.
    rewrite Hp, Hdown. cbn [fst snd].
    destruct (edit_ok e 0); [reflexivity|]. destruct (reply_ok e 1); reflexivity.
  - rewrite (process_update_submit_any c u e description Hd Ha Ht Hn).
    unfold submit_events, rendering, edit_or_reply_events, error_reply.
    rewrite Hp, Hdown. cbn [fst snd].
    destruct (edit_ok e 0); [reflexivity|]. cbn [fst snd orb].
    destruct (reply_ok e 1) eqn:Hp1; cbn [fst snd]; [reflexivity|].
    cbn [List.filter is_reply]. rewrite List.filter_app, no_reply_in_fetch.
    cbn [List.filter is_reply app length].
    rewrite <- app_assoc. reflexivity.
Qed.

Lemma transport_failure_caught_by_handler_witness :
  process_update
    (Conv (Some WAITING_FOR_EVENT) (<["text_description" := VStr "My lamp stopped working"]> ∅))
    (from_user (Text "It fell off the desk")) stormy =
  (idle,
   [ Reply processing_text ReplyKeyboardRemove PlainText true;
     Post "https://localhost:3000/api/lifecycle/telegram-event"
       {| telegramId := "42";
          text := VStr "It fell off the desk";
          botToken := VStr "secret";
          timestamp := 5123;
          imageBase64 := None |};
     Edit apology PlainText false;
     Reply apology NoMarkup PlainText true ]).
Proof.
  exact (proj2 (proj2 (transport_failure_caught_by_handler
    (Conv (Some WAITING_FOR_EVENT) (<["text_description" := VStr "My lamp stopped working"]> ∅))
    (from_user (Text "It fell off the desk")) stormy (VStr "It fell off the desk") None
    (HState ∅ [])
    (fun _ _ => eq_refl) (or_introl eq_refl) eq_refl eq_refl eq_refl eq_refl))).
Defined.

(** ** Which handler runs *)

Lemma process_update_route c u e :
  process_update c u e =
    match route c u with
    | Some h => handle h c u e
    | None => (c, [])
    end.
Proof.
  unfold process_update, route, handle.
  destruct (is_account_command u); [reflexivity|].
  destruct (select_handler conv_handler (state c) u); reflexivity.
Qed.

Lemma route_routed c u : routed c u (route c u).
Proof.
  unfold route. destruct (is_account_command u) eqn:Ha; [constructor|].
  destruct c as [[s|] stored]; unfold select_handler, first_match; cbn [state].
  - destruct (Z.eq_dec s WAITING_FOR_EVENT) as [->|H1];
      [|destruct (Z.eq_dec s WAITING_FOR_DESCRIPTION) as [->|H3]].
    1,2: cbn [state_handlers states conv_handler Z.eqb Pos.eqb WAITING_FOR_EVENT
              WAITING_FOR_DESCRIPTION List.find check_update filter_check];
      destruct (truthy (message_text (update_message u))) eqn:Ht;
      [ cbn [option_map callback]; apply routed_dialog; unfold in_dialog; cbn; auto
      | cbn [fallbacks conv_handler List.find check_update];
        destruct (update_message u); try constructor; discriminate ].
    rewrite unregistered_state by assumption.
    cbn [fallbacks conv_handler List.find check_update].
    destruct (update_message u) as [sizes|t|command written|] eqn:Hm; try constructor.
    destruct (String.eqb_spec command "cancel") as [->|Hne]; [|constructor].
    cbn [option_map callback]. eapply routed_cancel; eauto.
  - cbn [entry_points conv_handler List.find check_update filter_check].
    destruct (update_message u) as [sizes|t|command written|] eqn:Hm;
      cbn [message_photo message_text truthy andb negb option_map].
    + destruct sizes as [|p sizes]; [constructor|].
      cbn [option_map callback]. eapply routed_photo; eauto.
    + destruct (String.eqb_spec t "") as [->|Hne]; cbn [negb andb]; [constructor|].
      cbn [option_map callback]. eapply routed_text; eauto.
    + rewrite andb_false_r. constructor.
    + constructor.
Qed.

(** ** What each handler does, in any environment *)

Lemma handle_photo_any uid p sizes e stored :
  handle_photo {| effective_user := uid; update_message := Photo (p :: sizes) |} e
      (HState stored []) =
    (if reply_ok e 0 then Ret WAITING_FOR_DESCRIPTION else Raise TelegramError,
     HState
       (if reply_ok e 0
        then photo_data_in stored (default p (last (p :: sizes)))
        else stored)
       [Reply photo_prompt (ReplyKeyboardMarkup photo_keyboard) PlainText (reply_ok e 0)]).
Proof.
  unfold handle_photo, bind, reply_text, last_item, set_user_data, ret.
  cbn [trace user_data List.filter length app update_message message_photo].
  destruct (reply_ok e 0); [|reflexivity].
  destruct (last (p :: sizes)) as [chosen|] eqn:Hl; [reflexivity|].
  apply last_None in Hl. discriminate.
Qed.

Lemma handle_text_only_any u e stored :
  handle_text_only u e (HState stored []) =
    (if reply_ok e 0 then Ret WAITING_FOR_EVENT else Raise TelegramError,
     HState
       (if reply_ok e 0
        then <["text_description" := message_text (update_message u)]> stored
        else stored)
       [Reply text_only_prompt (ReplyKeyboardMarkup text_only_keyboard) PlainText
          (reply_ok e 0)]).
Proof.
  unfold handle_text_only, bind, reply_text, set_user_data, ret.
  cbn [trace user_data List.filter length app].
  destruct (reply_ok e 0); reflexivity.
Qed.

Lemma cancel_command_any u e stored :
  cancel_command u e (HState stored []) =
    (if reply_ok e 0 then Ret END else Raise TelegramError,
     HState ∅ [Reply cancelled_text ReplyKeyboardRemove PlainText (reply_ok e 0)]).
Proof.
  unfold cancel_command, bind, reply_text, clear_user_data, ret.
  cbn [trace user_data List.filter length app].
  destruct (reply_ok e 0); reflexivity.
Qed.

Lemma prompt_turn_any u e stored content next :
  normalize stored (message_text (update_message u)) = Prompt content next ->
  process_lifecycle_event u e (HState stored []) =
    (if reply_ok e 0 then Ret next else Raise TelegramError,
     HState stored [Reply content ReplyKeyboardRemove PlainText (reply_ok e 0)]).
Proof.
  intros Hn.
  unfold process_lifecycle_event, bind at 1. cbn [get_user_data user_data fst snd].
  rewrite Hn. unfold bind, reply_text, ret.
  cbn [trace user_data List.filter length app].
  destruct (reply_ok e 0); reflexivity.
Qed.

Lemma posts_of_edit_or_reply e edits replies cp :
  submissions (fst (edit_or_reply_events e edits replies cp)) = [].
Proof. unfold edit_or_reply_events. destruct (edit_ok e edits); reflexivity. Qed.

Lemma posts_of_rendering e edits replies r :
  submissions (fst (rendering e edits replies r)) = [].
Proof.
  unfold rendering. destruct r as [|result]; [apply posts_of_edit_or_reply|].
  destruct (fst (outcome_content result e (HState ∅ []))) as [cp|x];
    [|apply posts_of_edit_or_reply].
  cbv zeta. destruct (snd (edit_or_reply_events e edits replies cp));
    [apply posts_of_edit_or_reply|].
  cbn [fst]. rewrite submissions_app, !posts_of_edit_or_reply. reflexivity.
Qed.

Lemma posts_of_submit_events e u stored description :
  submissions (fst (submit_events e u stored description)) =
    if reply_ok e 0
    then [Post (request_url e) (turn_body e u stored description)]
    else [].
Proof.
  unfold submit_events. destruct (reply_ok e 0); [|reflexivity].
  cbn [fst]. unfold submissions at 1. cbn [List.filter is_post].
  rewrite List.filter_app. fold (submissions (fetch_events e stored)).
  rewrite no_post_in_fetch. cbn [List.filter is_post app].
  fold (submissions (fst (rendering e 0 1
    (http_post e (request_url e) (turn_body e u stored description))))).
  rewrite posts_of_rendering. reflexivity.
Qed.

Lemma handle_submit c u e description :
  normalize (data c) (message_text (update_message u)) = Submit description ->
  handle process_lifecycle_event c u e =
    if snd (submit_events e u (data c) description)
    then (idle, fst (submit_events e u (data c) description))
    else (c,
          (fst (submit_events e u (data c) description) ++
           [error_reply e (fst (submit_events e u (data c) description))])%list).
Proof.
  intros Hn. unfold handle. rewrite (submit_turn_any u e (data c) description Hn).
  destruct (snd (submit_events e u (data c) description)); [reflexivity|].
  unfold error_handler, reply_text, error_reply. cbn [snd user_data trace].
  destruct c; reflexivity.
Qed.

Lemma handle_prompt c u e content next :
  normalize (data c) (message_text (update_message u)) = Prompt content next ->
  handle process_lifecycle_event c u e =
    if reply_ok e 0
    then (Conv (Some next) (data c), [Reply content ReplyKeyboardRemove PlainText true])
    else (c, [Reply content ReplyKeyboardRemove PlainText false;
              Reply error_text NoMarkup PlainText (reply_ok e 1)]).
Proof.
  intros Hn. unfold handle. rewrite (prompt_turn_any u e (data c) content next Hn).
  destruct (reply_ok e 0).
  - cbn [user_data trace].
    destruct (normalize_prompt _ _ _ _ Hn) as [->| ->]; reflexivity.
  - unfold error_handler, reply_text. cbn. destruct c; reflexivity.
Qed.

Lemma handle_cancel c u e :
  handle cancel_command c u e =
    if reply_ok e 0
    then (idle, [Reply cancelled_text ReplyKeyboardRemove PlainText true])
    else (Conv (state c) ∅,
          [Reply cancelled_text ReplyKeyboardRemove PlainText false;
           Reply error_text NoMarkup PlainText (reply_ok e 1)]).
Proof.
  unfold handle. rewrite cancel_command_any.
  destruct (reply_ok e 0); [reflexivity|].
  unfold error_handler, reply_text. cbn. reflexivity.
Qed.

Lemma handle_photo_entry c uid p sizes e :
  handle handle_photo c {| effective_user := uid; update_message := Photo (p :: sizes) |} e =
    if reply_ok e 0
    then (Conv (Some WAITING_FOR_DESCRIPTION)
            (photo_data_in (data c) (default p (last (p :: sizes)))),
          [Reply photo_prompt (ReplyKeyboardMarkup photo_keyboard) PlainText true])
    else (c, [Reply photo_prompt (ReplyKeyboardMarkup photo_keyboard) PlainText false;
              Reply error_text NoMarkup PlainText (reply_ok e 1)]).
Proof.
  unfold handle. rewrite handle_photo_any.
  destruct (reply_ok e 0); [reflexivity|].
  unfold error_handler, reply_text. cbn. destruct c; reflexivity.
Qed.

Lemma handle_text_entry c u e :
  handle handle_text_only c u e =
    if reply_ok e 0
    then (Conv (Some WAITING_FOR_EVENT)
            (<["text_description" := message_text (update_message u)]> (data c)),
          [Reply text_only_prompt (ReplyKeyboardMarkup text_only_keyboard) PlainText true])
    else (c, [Reply text_only_prompt (ReplyKeyboardMarkup text_only_keyboard)
                PlainText false;
              Reply error_text NoMarkup PlainText (reply_ok e 1)]).
Proof.
  unfold handle. rewrite handle_text_only_any.
  destruct (reply_ok e 0); [reflexivity|].
  unfold error_handler, reply_text. cbn. destruct c; reflexivity.
Qed.

(** ** Requests *)

(** What a turn submits, in any environment. *)
Lemma turn_requests (c : conv) (u : update) (e : env) :
  submissions (snd (process_update c u e)) = [] \/
  exists description,
    in_dialog c /\
    normalize (data c) (message_text (update_message u)) = Submit description /\
    reply_ok e 0 = true /\
    submissions (snd (process_update c u e)) =
      [Post (request_url e) (turn_body e u (data c) description)] /\
    text (turn_body e u (data c) description) = description.
Proof.
  rewrite process_update_route.
  destruct (route_routed c u) as [|p sizes Hs Hm|t Hs Hm Ht|Hd Ha Ht|s written Hs H1 H3 Hm].
  - left. reflexivity.
  - left. destruct u as [uid m]. cbn in Hm. subst m.
    rewrite handle_photo_entry. destruct (reply_ok e 0); reflexivity.
  - left. rewrite handle_text_entry. destruct (reply_ok e 0); reflexivity.
  - destruct (normalize (data c) (message_text (update_message u)))
      as [description|content next] eqn:Hn.
    + rewrite (handle_submit c u e description Hn).
      assert (Hposts : submissions
          (snd (if snd (submit_events e u (data c) description)
                then (idle, fst (submit_events e u (data c) description))
                else (c, (fst (submit_events e u (data c) description) ++
                          [error_reply e (fst (submit_events e u (data c) description))])%list)))
          = submissions (fst (submit_events e u (data c) description))).
      { destruct (snd (submit_events e u (data c) description)); cbn [snd]; [reflexivity|].
        rewrite submissions_app. cbn. rewrite app_nil_r. reflexivity. }
      rewrite Hposts, posts_of_submit_events.
      destruct (reply_ok e 0) eqn:Hp; [right|left; reflexivity].
      exists description. repeat split; assumption.
    + left. rewrite (handle_prompt c u e content next Hn).
      destruct (reply_ok e 0); reflexivity.
  - left. rewrite handle_cancel. destruct (reply_ok e 0); reflexivity.
Qed.

(** X1.  In every environment, whatever fails and however often the
    rendering is retried, a turn makes at most one submission call; it
    makes one only when the conversation is in a registered state, the text
    is settled as a description and the placeholder was delivered, and the
    request then carries that description. *)
Theorem one_request_per_turn_at_most (c : conv) (u : update) (e : env) :
  submissions (snd (process_update c u e)) = [] \/
  exists description,
    in_dialog c /\
    normalize (data c) (message_text (update_message u)) = Submit description /\
    reply_ok e 0 = true /\
    submissions (snd (process_update c u e)) =
      [Post (request_url e) (turn_body e u (data c) description)] /\
    text (turn_body e u (data c) description) = description.
Proof. exact (turn_requests c u e). Qed.

(** ** Photos and texts within a dialog *)

Lemma route_of_photo c uid sizes :
  state c <> None ->
  route c {| effective_user := uid; update_message := Photo sizes |} = None.
Proof.
  intros Hs.
  pose proof (route_routed c {| effective_user := uid; update_message := Photo sizes |}) as H.
  inversion H as [Hr|p l H0 Hm Hr|t H0 Hm Ht Hr|Hd Ha Ht Hr|s written H0 H1 H3 Hm Hr];
    try reflexivity; try contradiction; discriminate.
Qed.

Lemma conversation_of_unchanged a chat uid c chat' uid' :
  state c = conversations a !! (chat, uid) ->
  state c <> None ->
  data c = default ∅ (users_data a !! uid) ->
  conversation_of
    (App
       match state c with
       | Some s => <[(chat, uid) := s]> (conversations a)
       | None => delete (chat, uid) (conversations a)
       end
       (<[uid := data c]> (users_data a))) chat' uid' =
  conversation_of a chat' uid'.
Proof.
  intros Hs Hrunning Hd. unfold conversation_of. cbn [conversations users_data].
  destruct (state c) as [s|] eqn:Hstate; [|contradiction].
  rewrite insert_id by (symmetry; exact Hs). f_equal.
  destruct (Z.eq_dec uid' uid) as [->|Hne].
  - rewrite lookup_insert_eq. exact Hd.
  - rewrite lookup_insert_ne by congruence. reflexivity.
Qed.

(** X3.  While a conversation is running in a chat, in whatever state, a
    photo sent there reaches no handler: nothing is answered, stored or
    submitted, and no conversation and no user's data change.  So, from
    within the chat, the photo of a dialog cannot be replaced and a dialog
    opened by text cannot be given one. *)
Theorem photo_during_dialog_is_ignored (a : application) (chat uid : Z)
    (sizes : list PhotoSize) (e : env) :
  conversations a !! (chat, uid) <> None ->
  process_update (conversation_of a chat uid)
      {| effective_user := uid; update_message := Photo sizes |} e =
    (conversation_of a chat uid, []) /\
  snd (dispatch a chat {| effective_user := uid; update_message := Photo sizes |} e) = [] /\
  forall chat' uid',
    conversation_of
      (fst (dispatch a chat {| effective_user := uid; update_message := Photo sizes |} e))
      chat' uid' =
    conversation_of a chat' uid'.
Proof.
  intros Hrunning.
  assert (Hturn : process_update (conversation_of a chat uid)
      {| effective_user := uid; update_message := Photo sizes |} e =
    (conversation_of a chat uid, [])).
  { rewrite process_update_route, route_of_photo by exact Hrunning. reflexivity. }
  split; [exact Hturn|].
  unfold dispatch. cbn [effective_user]. rewrite Hturn. cbn [fst snd].
  split; [reflexivity|]. intros chat' uid'.
  apply conversation_of_unchanged; [reflexivity|exact Hrunning|reflexivity].
Qed.

Lemma photo_during_dialog_is_ignored_witness :
  snd (dispatch
         (fst (dispatch started 7 (from_user (Text "My lamp stopped working")) sunny))
         7 (from_user (Photo [thumbnail; lamp_photo])) sunny) = [] /\
  conversation_of
    (fst (dispatch
            (fst (dispatch started 7 (from_user (Text "My lamp stopped working")) sunny))
            7 (from_user (Photo [thumbnail; lamp_photo])) sunny)) 7 42 =
  Conv (Some WAITING_FOR_EVENT)
    (<["text_description" := VStr "My lamp stopped working"]> ∅).
Proof.
  assert (Hrunning :
    conversations
      (fst (dispatch started 7 (from_user (Text "My lamp stopped working")) sunny))
      !! (7%Z, 42%Z) <> None) by (vm_compute; discriminate).
  destruct (photo_during_dialog_is_ignored
    (fst (dispatch started 7 (from_user (Text "My lamp stopped working")) sunny))
    7 42 [thumbnail; lamp_photo] sunny Hrunning) as (_ & Hsent & Hsame).
  split; [exact Hsent|].
  refine (eq_trans (Hsame 7%Z 42%Z) _). vm_compute. reflexivity.
Defined.

(** ** Cancelling *)

(** X4.  In the two registered states the text handler is asked before the
    fallback and [filters.TEXT] accepts commands: /cancel is not cancelled
    but submitted.  Once the placeholder is out, the turn makes a request
    whose description is the text of the message exactly as it was typed
    (the slash and what follows it, in whatever case and with whatever
    suffix and arguments), and [cancel_command] does not run: its
    acknowledgement is not among the messages. *)
Theorem cancel_in_dialog_is_submitted (c : conv) (uid : Z) (written : string)
    (e : env) :
  in_dialog c ->
  reply_ok e 0 = true ->
  exists body,
    submissions
      (snd (process_update c
              {| effective_user := uid; update_message := Command "cancel" written |} e)) =
      [Post (request_url e) body] /\
    text body = VStr ("/" +:+ written) /\
    telegramId body = pretty uid /\
    forall ok,
      ~ In (Reply cancelled_text ReplyKeyboardRemove PlainText ok)
          (snd (process_update c
                  {| effective_user := uid; update_message := Command "cancel" written |} e)).
Proof.
  intros Hd Hp.
  set (u := {| effective_user := uid; update_message := Command "cancel" written |}).
  assert (Hn : normalize (data c) (message_text (update_message u)) =
               Submit (VStr ("/" +:+ written))) by reflexivity.
  exists (turn_body e u (data c) (VStr ("/" +:+ written))).
  rewrite (process_update_submit_any c u e _ Hd eq_refl eq_refl Hn).
  assert (Hposts : submissions
      (snd (if snd (submit_events e u (data c) (VStr ("/" +:+ written)))
            then (idle, fst (submit_events e u (data c) (VStr ("/" +:+ written))))
            else (c, (fst (submit_events e u (data c) (VStr ("/" +:+ written))) ++
                      [error_reply e
                         (fst (submit_events e u (data c) (VStr ("/" +:+ written))))])%list)))
      = submissions (fst (submit_events e u (data c) (VStr ("/" +:+ written))))).
  { destruct (snd (submit_events e u (data c) (VStr ("/" +:+ written))));
      cbn [snd]; [reflexivity|].
    rewrite submissions_app. cbn. rewrite app_nil_r. reflexivity. }
  rewrite Hposts, posts_of_submit_events, Hp.
  split; [reflexivity|]. split; [reflexivity|]. split; [reflexivity|].
  intros ok Hin.
  assert (Hsub : Forall (fun ev => ev <> Reply cancelled_text ReplyKeyboardRemove PlainText ok)
      (fst (submit_events e u (data c) (VStr ("/" +:+ written))))).
  { unfold submit_events. rewrite Hp. cbn [fst].
    constructor; [intros H; inversion H as [Hc]; vm_compute in Hc; discriminate|].
    apply Forall_app. split.
    - unfold fetch_events, photo_events.
      destruct (data c !! "photo_file_id") as [file|]; [|constructor].
      destruct (bot_get_file e file); repeat constructor; discriminate.
    - constructor; [discriminate|].
      unfold rendering, edit_or_reply_events.
      repeat match goal with
             | |- context [match ?x with _ => _ end] => destruct x
             end; cbn [fst snd app]; repeat constructor; discriminate. }
  rewrite List.Forall_forall in Hsub.
  destruct (snd (submit_events e u (data c) (VStr ("/" +:+ written)))); cbn [snd] in Hin.
  - exact (Hsub _ Hin eq_refl).
  - apply in_app_or in Hin as [Hin|[Hin|[]]]; [exact (Hsub _ Hin eq_refl)|].
    unfold error_reply in Hin. discriminate.
Qed.

Lemma cancel_in_dialog_is_submitted_witness :
  exists body,
    submissions
      (snd (process_update
              (Conv (Some WAITING_FOR_DESCRIPTION) (photo_data lamp_photo))
              (from_user (Command "cancel" "CANCEL now")) sunny)) =
      [Post (request_url sunny) body] /\
    text body = VStr "/CANCEL now".
Proof.
  destruct (cancel_in_dialog_is_submitted
              (Conv (Some WAITING_FOR_DESCRIPTION) (photo_data lamp_photo)) 42
              "CANCEL now" sunny
              (or_intror eq_refl) eq_refl) as (body & Hposts & Htext & _).
  exists body. split; [exact Hposts | exact Htext].
Defined.

(** X5.  [WAITING_FOR_IMAGE] has no handler of its own: every update but
    /cancel is ignored there.  /cancel empties the data in any case, but the
    conversation ends only if the acknowledgement is delivered; otherwise
    [cancel_command] raises after clearing and the state stays. *)
Theorem waiting_for_image_is_left_by_cancel_alone (stored : gmap string value)
    (u : update) (e : env) :
  process_update (Conv (Some WAITING_FOR_IMAGE) stored) u e =
    match update_message u with
    | Command name written =>
        if existsb (String.eqb name) account_commands
        then (Conv (Some WAITING_FOR_IMAGE) stored, [])
        else if String.eqb name "cancel" then
          if reply_ok e 0
          then (idle, [Reply cancelled_text ReplyKeyboardRemove PlainText true])
          else (Conv (Some WAITING_FOR_IMAGE) ∅,
                [Reply cancelled_text ReplyKeyboardRemove PlainText false;
                 Reply error_text NoMarkup PlainText (reply_ok e 1)])
        else (Conv (Some WAITING_FOR_IMAGE) stored, [])
    | _ => (Conv (Some WAITING_FOR_IMAGE) stored, [])
    end.
Proof.
  destruct (update_message u) as [sizes|t|name written|] eqn:Hm.
  1,2,4: apply waiting_for_image_ignores; rewrite Hm; intros written; discriminate.
  unfold process_update, is_account_command. rewrite Hm.
  destruct (existsb (String.eqb name) account_commands); [reflexivity|].
  unfold select_handler, first_match. cbn [state state_handlers states conv_handler
    Z.eqb Pos.eqb WAITING_FOR_IMAGE WAITING_FOR_EVENT WAITING_FOR_DESCRIPTION List.find
    fallbacks check_update].
  rewrite Hm. destruct (String.eqb name "cancel"); [|reflexivity].
  cbn [callback data]. rewrite cancel_command_any.
  destruct (reply_ok e 0); [reflexivity|].
  unfold error_handler, reply_text. cbn. reflexivity.
Qed.

(** ** When messages cannot be delivered *)

(** X6.  If the placeholder cannot be sent, [process_lifecycle_event]
    raises before anything else happens: no photo is fetched, no request is
    made, the conversation keeps its state and its data, and the only other
    message is the error handler's. *)
Theorem refused_placeholder_submits_nothing (c : conv) (u : update) (e : env)
    (description : value) :
  in_dialog c ->
  is_account_command u = false ->
  truthy (message_text (update_message u)) = true ->
  normalize (data c) (message_text (update_message u)) = Submit description ->
  reply_ok e 0 = false ->
  process_update c u e =
    (c, [Reply processing_text ReplyKeyboardRemove PlainText false;
         Reply error_text NoMarkup PlainText (reply_ok e 1)]).
Proof.
  intros Hd Ha Ht Hn Hp.
  rewrite (process_update_submit_any c u e description Hd Ha Ht Hn).
  unfold submit_events, error_reply. rewrite Hp. reflexivity.
Qed.

(** X7.  A recorded event can end in the apology.  When the backend
    answered and the outcome was rendered, but the placeholder could not be
    edited and the new message was refused too, the handler's outer [except]
    takes over: if the second edit goes through, the user reads the
    apology, after the one request has been made, and the conversation is
    reset. *)
Theorem unshowable_outcome_ends_in_apology (c : conv) (u : update) (e : env)
    (description : value) (result : value) (content : string) (mode : parse_mode) :
  in_dialog c ->
  is_account_command u = false ->
  truthy (message_text (update_message u)) = true ->
  normalize (data c) (message_text (update_message u)) = Submit description ->
  http_post e (request_url e) (turn_body e u (data c) description) = HttpJson result ->
  fst (outcome_content result e (HState ∅ [])) = Ret (content, mode) ->
  reply_ok e 0 = true ->
  edit_ok e 0 = false ->
  reply_ok e 1 = false ->
  edit_ok e 1 = true ->
  process_update c u e =
    (idle,
     Reply processing_text ReplyKeyboardRemove PlainText true ::
     fetch_events e (data c) ++
     [ Post (request_url e) (turn_body e u (data c) description);
       Edit content mode false;
       Reply content NoMarkup mode false;
       Edit apology PlainText true ]).
Proof.
  intros Hd Ha Ht Hn Hpost Hout Hp0 He0 Hp1 He1.
  rewrite (process_update_submit_any c u e description Hd Ha Ht Hn).
  unfold submit_events, rendering, edit_or_reply_events.
  rewrite Hp0, Hpost, Hout, He0, Hp1, He1. reflexivity.
Qed.

(** X8.  If, after the request, nothing at all can be shown (no edit and no
    new message goes through), the handler raises once the request has been
    made: the conversation is not reset but keeps its state and its data,
    so the same text sent again, when messages go through again, is
    submitted a second time. *)
Theorem undeliverable_outcome_keeps_dialog_open (c : conv) (u : update) (e e' : env)
    (description : value) :
  in_dialog c ->
  is_account_command u = false ->
  truthy (message_text (update_message u)) = true ->
  normalize (data c) (message_text (update_message u)) = Submit description ->
  reply_ok e 0 = true ->
  (forall n, edit_ok e n = false) ->
  (forall n, reply_ok e (S n) = false) ->
  replies_delivered e' ->
  fst (process_update c u e) = c /\
  submissions (snd (process_update c u e)) =
    [Post (request_url e) (turn_body e u (data c) description)] /\
  submissions (snd (process_update (fst (process_update c u e)) u e')) =
    [Post (request_url e') (turn_body e' u (data c) description)].
Proof.
  intros Hd Ha Ht Hn Hp0 He Hp Hr'.
  assert (Hfail : snd (submit_events e u (data c) description) = false).
  { unfold submit_events, rendering, edit_or_reply_events. rewrite Hp0, !He, !Hp.
    cbn [fst snd].
    destruct (http_post e (request_url e) (turn_body e u (data c) description))
      as [|result]; [reflexivity|].
    destruct (fst (outcome_content result e (HState ∅ []))); reflexivity. }
  assert (Hturn : process_update c u e =
    (c, (fst (submit_events e u (data c) description) ++
         [error_reply e (fst (submit_events e u (data c) description))])%list)).
  { rewrite (process_update_submit_any c u e description Hd Ha Ht Hn), Hfail.
    reflexivity. }
  rewrite Hturn. cbn [fst snd]. split; [reflexivity|]. split.
  - rewrite submissions_app, posts_of_submit_events, Hp0. reflexivity.
  - rewrite (process_update_submit e' Hr' c u description Hd Ha Ht Hn). cbn [snd].
    apply submissions_of_turn.
Qed.

Lemma refused_placeholder_submits_nothing_witness :
  process_update described_next (from_user (Text "🔧 Fixed/Repaired")) muted =
    (described_next,
     [Reply processing_text ReplyKeyboardRemove PlainText false;
      Reply error_text NoMarkup PlainText false]).
Proof.
  exact (refused_placeholder_submits_nothing described_next
           (from_user (Text "🔧 Fixed/Repaired")) muted
           (VStr "I fixed and repaired this product, it's working now")
           (or_intror eq_refl) eq_refl eq_refl eq_refl eq_refl).
Defined.

Lemma unshowable_outcome_ends_in_apology_witness :
  exists content,
    contains content "Lamp" /\
    process_update described_next (from_user (Text "🔧 Fixed/Repaired")) flaky =
      (idle,
       [ Reply processing_text ReplyKeyboardRemove PlainText true;
         GetFile (VStr "AgACAgQ");
         Download "photos/file_1.jpg";
         Post (request_url flaky)
           (turn_body flaky (from_user (Text "🔧 Fixed/Repaired")) (photo_data lamp_photo)
              (VStr "I fixed and repaired this product, it's working now"));
         Edit content MARKDOWN false;
         Reply content NoMarkup MARKDOWN false;
         Edit apology PlainText true ]).
Proof.
  eexists. split; cycle 1.
  - exact (unshowable_outcome_ends_in_apology described_next
             (from_user (Text "🔧 Fixed/Repaired")) flaky
             (VStr "I fixed and repaired this product, it's working now")
             lamp_response _ MARKDOWN
             (or_intror eq_refl) eq_refl eq_refl eq_refl eq_refl eq_refl
             eq_refl eq_refl eq_refl eq_refl).
  - exists (nl +:+ "✅ *Lifecycle Event Recorded!*" +:+ nl +:+ nl +:+ "*Product:* ").
    eexists. vm_compute. reflexivity.
Defined.

Lemma undeliverable_outcome_keeps_dialog_open_witness :
  fst (process_update described_next (from_user (Text "🔧 Fixed/Repaired")) fading) =
    described_next /\
  length (submissions
    (snd (process_update described_next (from_user (Text "🔧 Fixed/Repaired")) fading)))
    = 1%nat.
Proof.
  destruct (undeliverable_outcome_keeps_dialog_open described_next
              (from_user (Text "🔧 Fixed/Repaired")) fading sunny
              (VStr "I fixed and repaired this product, it's working now")
              (or_intror eq_refl) eq_refl eq_refl eq_refl eq_refl
              (fun _ => eq_refl) (fun _ => eq_refl) sunny_delivers)
    as (Hsame & Hposts & _).
  split; [exact Hsame|]. rewrite Hposts. reflexivity.
Defined.

(** ** Dialogs that start with a photo *)

Lemma mapped_label stored label sentence :
  In (label, sentence) description_mapping ->
  normalize stored (VStr label) = Submit (VStr sentence) /\ label <> "".
Proof.
  intros Hin. cbn [In description_mapping] in Hin.
  repeat (destruct Hin as [Heq|Hin]; [inversion Heq; subst; split; [reflexivity|discriminate]|]).
  contradiction.
Qed.

Lemma normalize_free_text stored t :
  existsb (String.eqb t) (quick_reply_labels ++ control_labels) = false ->
  normalize stored (VStr t) = Submit (VStr t).
Proof.
  intros H. cbn [existsb app quick_reply_labels control_labels] in H.
  repeat (apply orb_false_elim in H; destruct H as [? H]).
  unfold normalize. cbn [existsb quick_reply_labels py_eq_str].
  repeat match goal with
         | Hq : String.eqb t _ = false |- _ => rewrite Hq; clear Hq
         end.
  reflexivity.
Qed.

Lemma run_three c u1 e1 u2 e2 u3 e3 :
  run c [(u1, e1); (u2, e2); (u3, e3)] =
    (fst (process_update
            (fst (process_update (fst (process_update c u1 e1)) u2 e2)) u3 e3),
     (snd (process_update c u1 e1) ++
      snd (process_update (fst (process_update c u1 e1)) u2 e2) ++
      snd (process_update
             (fst (process_update (fst (process_update c u1 e1)) u2 e2)) u3 e3))%list).
Proof.
  cbn [run]. destruct (process_update c u1 e1) as [c1 t1]. cbn [fst snd].
  destruct (process_update c1 u2 e2) as [c2 t2]. cbn [fst snd].
  destruct (process_update c2 u3 e3) as [c3 t3]. cbn [fst snd].
  rewrite app_nil_r. reflexivity.
Qed.

Lemma image_of_photo e p path photo_bytes :
  bot_get_file e (VStr (file_id p)) = Some path ->
  file_download e path = Some photo_bytes ->
  fetched_image e (photo_data p) =
    Some ("data:image/jpeg;base64," +:+ b64encode photo_bytes).
Proof.
  intros Hfile Hload. unfold fetched_image, photo_data, photo_image.
  rewrite lookup_insert_ne by discriminate. rewrite lookup_insert_eq.
  rewrite Hfile, Hload. reflexivity.
Qed.

(** X9.  A photo followed by one of the eight quick-reply labels: the bot
    keeps the last size offered (the largest), downloads it, and makes
    exactly one request, whose description is the canonical sentence of the
    label and whose image is the data URI of the bytes in base64; then the
    conversation is idle. *)
Theorem photo_then_label_submits_sentence_and_image (uid : Z)
    (sizes : list PhotoSize) (p : PhotoSize) (label sentence : string)
    (e1 e2 : env) (path : string) (photo_bytes : list Byte.byte) :
  In (label, sentence) description_mapping ->
  replies_delivered e1 ->
  replies_delivered e2 ->
  bot_get_file e2 (VStr (file_id p)) = Some path ->
  file_download e2 path = Some photo_bytes ->
  exists body,
    fst (run idle
           [ ({| effective_user := uid; update_message := Photo (sizes ++ [p]) |}, e1);
             ({| effective_user := uid; update_message := Text label |}, e2) ]) = idle /\
    submissions
      (snd (run idle
              [ ({| effective_user := uid; update_message := Photo (sizes ++ [p]) |}, e1);
                ({| effective_user := uid; update_message := Text label |}, e2) ])) =
      [Post (request_url e2) body] /\
    text body = VStr sentence /\
    imageBase64 body = Some ("data:image/jpeg;base64," +:+ b64encode photo_bytes) /\
    telegramId body = pretty uid.
Proof.
  intros Hin Hr1 Hr2 Hfile Hload.
  set (u2 := {| effective_user := uid; update_message := Text label |}).
  destruct (mapped_label (photo_data p) label sentence Hin) as [Hn Hne].
  assert (Ht : truthy (message_text (update_message u2)) = true).
  { cbn. destruct (String.eqb_spec label ""); [contradiction|reflexivity]. }
  exists (turn_body e2 u2 (photo_data p) (VStr sentence)).
  rewrite run_two, photo_starts_afresh by assumption. cbn [fst snd].
  rewrite (process_update_submit e2 Hr2
    (Conv (Some WAITING_FOR_DESCRIPTION) (photo_data p)) u2 (VStr sentence)
    (or_intror eq_refl) eq_refl Ht Hn).
  cbn [fst snd]. split; [reflexivity|]. split.
  - rewrite submissions_app, submissions_of_turn. reflexivity.
  - unfold turn_body, request_body. cbn [text imageBase64 telegramId].
    rewrite (image_of_photo e2 p path photo_bytes Hfile Hload). repeat split.
Qed.

Lemma photo_then_label_submits_sentence_and_image_witness :
  exists body,
    submissions
      (snd (run idle
              [ (from_user (Photo [thumbnail; lamp_photo]), sunny);
                (from_user (Text "🔴 Broken/Not Working"), stale) ])) =
      [Post (request_url stale) body] /\
    text body = VStr "This product is broken and not working properly" /\
    imageBase64 body = Some "data:image/jpeg;base64,TWFu".
Proof.
  destruct (photo_then_label_submits_sentence_and_image 42 [thumbnail] lamp_photo
              "🔴 Broken/Not Working" "This product is broken and not working properly"
              sunny stale "photos/file_1.jpg" [Byte.x4d; Byte.x61; Byte.x6e]
              (or_introl eq_refl) sunny_delivers stale_delivers eq_refl eq_refl)
    as (body & _ & Hposts & Htext & Himage & _).
  exists body. repeat split; assumption.
Defined.

(** X10.  "Custom Description" after a photo only asks for the text: the
    conversation stays in [WAITING_FOR_DESCRIPTION] and the photo stays
    stored, so the free text that follows is submitted, once, unchanged and
    together with the image. *)
Theorem custom_description_keeps_the_photo (uid : Z) (sizes : list PhotoSize)
    (p : PhotoSize) (t : string) (e1 e2 e3 : env) (path : string)
    (photo_bytes : list Byte.byte) :
  t <> "" ->
  existsb (String.eqb t) (quick_reply_labels ++ control_labels) = false ->
  replies_delivered e1 ->
  replies_delivered e2 ->
  replies_delivered e3 ->
  bot_get_file e3 (VStr (file_id p)) = Some path ->
  file_download e3 path = Some photo_bytes ->
  run idle
    [ ({| effective_user := uid; update_message := Photo (sizes ++ [p]) |}, e1);
      ({| effective_user := uid; update_message := Text "📝 Custom Description" |}, e2) ] =
    (Conv (Some WAITING_FOR_DESCRIPTION)
       (<["photo_size" := from_option VInt VNone (file_size p)]>
          (<["photo_file_id" := VStr (file_id p)]> ∅)),
     [ Reply photo_prompt (ReplyKeyboardMarkup photo_keyboard) PlainText true;
       Reply "Please describe what happened with your product:" ReplyKeyboardRemove
         PlainText true ]) /\
  exists body,
    fst (run idle
           [ ({| effective_user := uid; update_message := Photo (sizes ++ [p]) |}, e1);
             ({| effective_user := uid; update_message := Text "📝 Custom Description" |}, e2);
             ({| effective_user := uid; update_message := Text t |}, e3) ]) = idle /\
    submissions
      (snd (run idle
              [ ({| effective_user := uid; update_message := Photo (sizes ++ [p]) |}, e1);
                ({| effective_user := uid;
                    update_message := Text "📝 Custom Description" |}, e2);
                ({| effective_user := uid; update_message := Text t |}, e3) ])) =
      [Post (request_url e3) body] /\
    text body = VStr t /\
    imageBase64 body = Some ("data:image/jpeg;base64," +:+ b64encode photo_bytes).
Proof.
  intros Hne Hfree Hr1 Hr2 Hr3 Hfile Hload.
  set (u2 := {| effective_user := uid; update_message := Text "📝 Custom Description" |}).
  set (u3 := {| effective_user := uid; update_message := Text t |}).
  set (c1 := Conv (Some WAITING_FOR_DESCRIPTION) (photo_data p)).
  assert (H2 : process_update c1 u2 e2 =
    (c1, [Reply "Please describe what happened with your product:" ReplyKeyboardRemove
            PlainText true])).
  { apply (process_update_prompt e2 Hr2 c1 u2); try reflexivity. right. reflexivity. }
  assert (Hn : normalize (data c1) (message_text (update_message u3)) = Submit (VStr t)).
  { apply (normalize_free_text (data c1) t Hfree). }
  assert (Ht : truthy (message_text (update_message u3)) = true).
  { cbn. destruct (String.eqb_spec t ""); [contradiction|reflexivity]. }
  split.
  - rewrite run_two, photo_starts_afresh by assumption. cbn [fst snd].
    fold c1. rewrite H2. reflexivity.
  - exists (turn_body e3 u3 (photo_data p) (VStr t)).
    rewrite run_three, photo_starts_afresh by assumption. cbn [fst snd].
    fold c1. rewrite H2. cbn [fst snd].
    rewrite (process_update_submit e3 Hr3 c1 u3 (VStr t) (or_intror eq_refl) eq_refl Ht Hn).
    cbn [fst snd]. split; [reflexivity|]. split.
    + rewrite !submissions_app, submissions_of_turn. reflexivity.
    + unfold turn_body, request_body. cbn [text imageBase64].
      rewrite (image_of_photo e3 p path photo_bytes Hfile Hload). repeat split.
Qed.

Lemma custom_description_keeps_the_photo_witness :
  exists body,
    submissions
      (snd (run idle
              [ (from_user (Photo [thumbnail; lamp_photo]), sunny);
                (from_user (Text "📝 Custom Description"), sunny);
                (from_user (Text "The hinge snapped"), stale) ])) =
      [Post (request_url stale) body] /\
    text body = VStr "The hinge snapped" /\
    imageBase64 body = Some "data:image/jpeg;base64,TWFu".
Proof.
  destruct (custom_description_keeps_the_photo 42 [thumbnail] lamp_photo
              "The hinge snapped" sunny sunny stale "photos/file_1.jpg"
              [Byte.x4d; Byte.x61; Byte.x6e]
              ltac:(discriminate) eq_refl sunny_delivers sunny_delivers stale_delivers
              eq_refl eq_refl)
    as (_ & body & _ & Hposts & Htext & Himage).
  exists body. repeat split; assumption.
Defined.

(** ** The chats of one user *)

Lemma conversation_of_started chat uid : conversation_of started chat uid = idle.
Proof. unfold conversation_of, started. cbn. rewrite !lookup_empty. reflexivity. Qed.

Lemma photo_joins_stored_data e stored uid sizes p :
  reply_ok e 0 = true ->
  process_update (Conv None stored)
      {| effective_user := uid; update_message := Photo (sizes ++ [p]) |} e =
    (Conv (Some WAITING_FOR_DESCRIPTION) (photo_data_in stored p),
     [Reply photo_prompt (ReplyKeyboardMarkup photo_keyboard) PlainText true]).
Proof.
  intros Hp.
  destruct (sizes ++ [p])%list as [|p0 rest] eqn:Hs; [destruct sizes; discriminate|].
  rewrite process_update_route.
  change (route (Conv None stored)
            {| effective_user := uid; update_message := Photo (p0 :: rest) |})
    with (Some handle_photo).
  cbv beta iota. rewrite handle_photo_entry, Hp. rewrite <- Hs, last_snoc. reflexivity.
Qed.

(** X2.  The stored data belong to the user, the conversations to the user
    in a chat.  A free text sent in one chat and a photo sent in another,
    both idle, are stored together, and each chat has its own dialog
    running.  "Continue with text only" in the first chat then submits,
    once, the text together with the photo of the other chat, and empties
    the data of both: the first chat is idle again, the second still waits
    for the description of a photo that is no longer stored. *)
Theorem scratch_data_is_shared_between_chats (uid chat other : Z) (t : string)
    (sizes : list PhotoSize) (p : PhotoSize) (e1 e2 e3 : env) (path : string)
    (photo_bytes : list Byte.byte) :
  chat <> other ->
  t <> "" ->
  replies_delivered e1 ->
  replies_delivered e2 ->
  replies_delivered e3 ->
  bot_get_file e3 (VStr (file_id p)) = Some path ->
  file_download e3 path = Some photo_bytes ->
  let said := {| effective_user := uid; update_message := Text t |} in
  let sent := {| effective_user := uid; update_message := Photo (sizes ++ [p]) |} in
  let pressed :=
    {| effective_user := uid; update_message := Text "📝 Continue with text only" |} in
  let both :=
    <["photo_size" := from_option VInt VNone (file_size p)]>
      (<["photo_file_id" := VStr (file_id p)]>
         (<["text_description" := VStr t]> ∅)) in
  let a2 := fst (dispatch (fst (dispatch started chat said e1)) other sent e2) in
  let a3 := fst (dispatch a2 chat pressed e3) in
  conversation_of a2 chat uid = Conv (Some WAITING_FOR_EVENT) both /\
  conversation_of a2 other uid = Conv (Some WAITING_FOR_DESCRIPTION) both /\
  (exists body,
     submissions (snd (dispatch a2 chat pressed e3)) = [Post (request_url e3) body] /\
     text body = VStr t /\
     imageBase64 body = Some ("data:image/jpeg;base64," +:+ b64encode photo_bytes)) /\
  conversation_of a3 chat uid = idle /\
  conversation_of a3 other uid = Conv (Some WAITING_FOR_DESCRIPTION) ∅.
Proof.
  intros Hchats Hne Hr1 Hr2 Hr3 Hfile Hload said sent pressed both a2 a3.
  assert (Hkeys : (chat, uid) <> (other, uid)) by congruence.
  assert (Ha2 : a2 =
    App (<[(other, uid) := WAITING_FOR_DESCRIPTION]>
           (<[(chat, uid) := WAITING_FOR_EVENT]> ∅))
        (<[uid := both]> (<[uid := <["text_description" := VStr t]> ∅]> ∅))).
  { unfold a2, dispatch, said, sent. cbn [effective_user].
    rewrite conversation_of_started.
    rewrite (free_text_starts_dialog e1 Hr1 uid t Hne). cbn [fst snd state data].
    unfold conversation_of. cbn [conversations users_data].
    change (conversations started) with (∅ : gmap (Z * Z) Z).
    change (users_data started) with (∅ : gmap Z (gmap string value)).
    rewrite lookup_insert_ne by exact Hkeys. rewrite lookup_empty, lookup_insert_eq.
    cbn [default from_option id].
    rewrite (photo_joins_stored_data e2 _ uid sizes p (Hr2 0%nat)). reflexivity. }
  assert (Hhere : conversation_of a2 chat uid = Conv (Some WAITING_FOR_EVENT) both).
  { rewrite Ha2. unfold conversation_of. cbn [conversations users_data].
    rewrite lookup_insert_ne by congruence. rewrite !lookup_insert_eq. reflexivity. }
  assert (Hthere : conversation_of a2 other uid = Conv (Some WAITING_FOR_DESCRIPTION) both).
  { rewrite Ha2. unfold conversation_of. cbn [conversations users_data].
    rewrite !lookup_insert_eq. reflexivity. }
  assert (Htext : both !! "text_description" = Some (VStr t)).
  { unfold both. rewrite !lookup_insert_ne by discriminate. apply lookup_insert_eq. }
  assert (Hphoto : both !! "photo_file_id" = Some (VStr (file_id p))).
  { unfold both. rewrite lookup_insert_ne by discriminate. apply lookup_insert_eq. }
  assert (Hn : normalize both (message_text (update_message pressed)) = Submit (VStr t)).
  { unfold normalize, pressed. cbn [update_message message_text]. rewrite Htext.
    reflexivity. }
  assert (Hturn : process_update (Conv (Some WAITING_FOR_EVENT) both) pressed e3 =
    (idle,
     Reply processing_text ReplyKeyboardRemove PlainText true ::
     fetch_events e3 both ++
     Post (request_url e3) (turn_body e3 pressed both (VStr t)) ::
     shown_events (edit_ok e3 0)
       (shown e3 (http_post e3 (request_url e3) (turn_body e3 pressed both (VStr t)))))).
  { apply (process_update_submit e3 Hr3 (Conv (Some WAITING_FOR_EVENT) both) pressed
             (VStr t) (or_introl eq_refl) eq_refl eq_refl Hn). }
  assert (Ha3 : a3 =
    App (delete (chat, uid) (conversations a2)) (<[uid := ∅]> (users_data a2))).
  { unfold a3, dispatch.
    change (effective_user pressed) with uid.
    rewrite Hhere, Hturn. reflexivity. }
  split; [exact Hhere|]. split; [exact Hthere|]. split; [|split].
  - exists (turn_body e3 pressed both (VStr t)).
    unfold dispatch. change (effective_user pressed) with uid.
    rewrite Hhere, Hturn. cbn [snd]. rewrite submissions_of_turn.
    split; [reflexivity|]. split; [reflexivity|].
    unfold turn_body, request_body, fetched_image, photo_image. cbn [imageBase64].
    rewrite Hphoto, Hfile, Hload. reflexivity.
  - rewrite Ha3. unfold conversation_of. cbn [conversations users_data].
    rewrite lookup_delete_eq, lookup_insert_eq. reflexivity.
  - rewrite Ha3, Ha2. unfold conversation_of. cbn [conversations users_data].
    rewrite lookup_delete_ne by exact Hkeys. rewrite !lookup_insert_eq. reflexivity.
Qed.

Lemma scratch_data_is_shared_between_chats_witness :
  exists body,
    submissions
      (snd (dispatch
              (fst (dispatch
                      (fst (dispatch started 7
                              (from_user (Text "My lamp stopped working")) sunny))
                      8 (from_user (Photo [thumbnail; lamp_photo])) sunny))
              7 (from_user (Text "📝 Continue with text only")) stale)) =
      [Post (request_url stale) body] /\
    text body = VStr "My lamp stopped working" /\
    imageBase64 body = Some "data:image/jpeg;base64,TWFu".
Proof.
  destruct (scratch_data_is_shared_between_chats 42 7 8 "My lamp stopped working"
              [thumbnail] lamp_photo sunny sunny stale "photos/file_1.jpg"
              [Byte.x4d; Byte.x61; Byte.x6e]
              ltac:(discriminate) ltac:(discriminate)
              sunny_delivers sunny_delivers stale_delivers eq_refl eq_refl)
    as (_ & _ & (body & Hposts & Htext & Himage) & _).
  exists body. repeat split; assumption.
Defined.

(** ** Base64 *)

Lemma lor_shiftl_add (x y k : N) :
  (y < 2 ^ k)%N -> N.lor (N.shiftl x k) y = (x * 2 ^ k + y)%N.
Proof.
  intros Hy.
  assert (Hland : N.land (N.shiftl x k) y = 0%N).
  { apply N.bits_inj. intros m. rewrite N.land_spec, N.bits_0.
    destruct (N.lt_ge_cases m k) as [Hlt|Hge].
    - rewrite N.shiftl_spec_low by assumption. reflexivity.
    - destruct (N.eq_dec y 0%N) as [->|Hnz]; [rewrite N.bits_0; apply andb_false_r|].
      rewrite (N.bits_above_log2 y m); [apply andb_false_r|].
      apply N.lt_le_trans with k; [|assumption].
      apply N.log2_lt_pow2; [lia | assumption]. }
  rewrite <- N.lxor_lor by assumption.
  rewrite <- N.add_nocarry_lxor by assumption.
  rewrite N.shiftl_mul_pow2. reflexivity.
Qed.

Lemma group_value (a b c : Byte.byte) :
  N.lor (N.lor (N.shiftl (Byte.to_N a) 16) (N.shiftl (Byte.to_N b) 8)) (Byte.to_N c) =
    (Byte.to_N a * 65536 + Byte.to_N b * 256 + Byte.to_N c)%N.
Proof.
  pose proof (Byte.to_N_bounded a). pose proof (Byte.to_N_bounded b).
  pose proof (Byte.to_N_bounded c).
  rewrite (N.shiftl_mul_pow2 (Byte.to_N b) 8).
  rewrite (lor_shiftl_add (Byte.to_N a) (Byte.to_N b * 2 ^ 8) 16)
    by (change (2 ^ 8)%N with 256%N; change (2 ^ 16)%N with 65536%N; lia).
  change (2 ^ 8)%N with 256%N. change (2 ^ 16)%N with 65536%N.
  replace (Byte.to_N a * 65536 + Byte.to_N b * 256)%N
    with ((Byte.to_N a * 256 + Byte.to_N b) * 2 ^ 8)%N
    by (change (2 ^ 8)%N with 256%N; lia).
  rewrite <- N.shiftl_mul_pow2.
  rewrite lor_shiftl_add by (change (2 ^ 8)%N with 256%N; lia).
  rewrite ?N.shiftl_mul_pow2. reflexivity.
Qed.

Lemma b64_char_mod (n : N) : b64_char n = nth (N.to_nat (n mod 64)) b64_alphabet "="%char.
Proof.
  unfold b64_char. change 63%N with (N.ones 6). rewrite N.land_ones. reflexivity.
Qed.

Lemma alphabet_read_back :
  forallb (fun i => (b64_index (nth i b64_alphabet "="%char) =? N.of_nat i)%N &&
                    negb (Ascii.eqb (nth i b64_alphabet "="%char) "="))
          (seq 0 64) = true.
Proof. vm_compute. reflexivity. Qed.

Lemma b64_index_char (n : N) :
  b64_index (b64_char n) = (n mod 64)%N /\ Ascii.eqb (b64_char n) "=" = false.
Proof.
  rewrite b64_char_mod.
  assert (Hlt : (N.to_nat (n mod 64) < 64)%nat).
  { assert (n mod 64 < 64)%N by (apply N.mod_upper_bound; discriminate). lia. }
  pose proof alphabet_read_back as H. rewrite forallb_forall in H.
  specialize (H (N.to_nat (n mod 64))).
  rewrite List.in_seq in H. specialize (H (conj (Nat.le_0_l _) Hlt)).
  apply andb_true_iff in H as [H1 H2]. apply N.eqb_eq in H1.
  rewrite H1, N2Nat.id. split; [reflexivity|]. apply negb_true_iff, H2.
Qed.

Lemma byte_of_to_N (a : Byte.byte) : byte_of_N (Byte.to_N a) = a.
Proof. unfold byte_of_N. rewrite Byte.of_to_N. reflexivity. Qed.

Ltac arith_N := zify; Z.to_euclidean_division_equations; lia.

Lemma sextets_rebuild (n : N) :
  (n < 16777216)%N ->
  ((((n / 262144) mod 64 * 64 + (n / 4096) mod 64) * 64 + (n / 64) mod 64) * 64
   + n mod 64)%N = n.
Proof. intros H. arith_N. Qed.

Lemma group_bytes (x y z : N) :
  (x <= 255)%N -> (y <= 255)%N -> (z <= 255)%N ->
  let n := (x * 65536 + y * 256 + z)%N in
  (n < 16777216)%N /\ (n / 65536 = x)%N /\ ((n / 256) mod 256 = y)%N /\ (n mod 256 = z)%N.
Proof. intros Hx Hy Hz n. subst n. repeat split; arith_N. Qed.

Lemma list_ind3 {A} (P : list A -> Prop) :
  P [] -> (forall a, P [a]) -> (forall a b, P [a; b]) ->
  (forall a b c l, P l -> P (a :: b :: c :: l)) ->
  forall l, P l.
Proof.
  intros H0 H1 H2 H3.
  assert (Hall : forall l, P l /\ (forall a, P (a :: l)) /\ (forall a b, P (a :: b :: l))).
  { induction l as [|x l (IH0 & IH1 & IH2)].
    - repeat split; auto.
    - repeat split; auto. }
  intros l. apply Hall.
Qed.

Lemma decode_full_group (a b c : Byte.byte) (rest : list Byte.byte) :
  b64decode (b64encode (a :: b :: c :: rest)) = a :: b :: c :: b64decode (b64encode rest).
Proof.
  cbn [b64encode]. cbv zeta. rewrite group_value.
  pose proof (group_bytes _ _ _ (Byte.to_N_bounded a) (Byte.to_N_bounded b)
                (Byte.to_N_bounded c)) as (Hn & H0 & H1 & H2).
  set (n := (Byte.to_N a * 65536 + Byte.to_N b * 256 + Byte.to_N c)%N) in *.
  cbn [b64decode]. cbv zeta.
  destruct (b64_index_char (N.shiftr n 18)) as [-> _].
  destruct (b64_index_char (N.shiftr n 12)) as [-> _].
  destruct (b64_index_char (N.shiftr n 6)) as [-> ->].
  destruct (b64_index_char n) as [-> ->].
  rewrite !N.shiftr_div_pow2.
  change (2 ^ 18)%N with 262144%N. change (2 ^ 12)%N with 4096%N.
  change (2 ^ 6)%N with 64%N.
  rewrite !N.Div0.mod_mod. rewrite (sextets_rebuild n Hn).
  rewrite H0, H1, H2, !byte_of_to_N. reflexivity.
Qed.

Lemma padding_index : (b64_index "=" mod 64 = 0)%N /\ Ascii.eqb "=" "=" = true.
Proof. split; reflexivity. Qed.

Lemma decode_two (a b : Byte.byte) : b64decode (b64encode [a; b]) = [a; b].
Proof.
  cbn [b64encode]. cbv zeta.
  rewrite (N.shiftl_mul_pow2 (Byte.to_N b) 8).
  pose proof (Byte.to_N_bounded a) as Ha. pose proof (Byte.to_N_bounded b) as Hb.
  rewrite (lor_shiftl_add (Byte.to_N a) (Byte.to_N b * 2 ^ 8) 16)
    by (change (2 ^ 8)%N with 256%N; change (2 ^ 16)%N with 65536%N; lia).
  change (2 ^ 8)%N with 256%N. change (2 ^ 16)%N with 65536%N.
  set (n := (Byte.to_N a * 65536 + Byte.to_N b * 256)%N).
  cbn [b64decode]. cbv zeta.
  destruct (b64_index_char (N.shiftr n 18)) as [-> _].
  destruct (b64_index_char (N.shiftr n 12)) as [-> _].
  destruct (b64_index_char (N.shiftr n 6)) as [-> ->].
  destruct padding_index as [-> ->].
  rewrite !N.shiftr_div_pow2.
  change (2 ^ 18)%N with 262144%N. change (2 ^ 12)%N with 4096%N.
  change (2 ^ 6)%N with 64%N.
  rewrite !N.Div0.mod_mod.
  assert (H0 : (((((n / 262144) mod 64 * 64 + (n / 4096) mod 64) * 64 + (n / 64) mod 64) * 64
                 + 0) / 65536 = Byte.to_N a)%N) by (subst n; arith_N).
  assert (H1 : ((((((n / 262144) mod 64 * 64 + (n / 4096) mod 64) * 64 + (n / 64) mod 64) * 64
                  + 0) / 256) mod 256 = Byte.to_N b)%N) by (subst n; arith_N).
  rewrite H0, H1, !byte_of_to_N. reflexivity.
Qed.

Lemma decode_one (a : Byte.byte) : b64decode (b64encode [a]) = [a].
Proof.
  cbn [b64encode]. cbv zeta. rewrite N.shiftl_mul_pow2.
  change (2 ^ 16)%N with 65536%N.
  pose proof (Byte.to_N_bounded a) as Ha.
  set (n := (Byte.to_N a * 65536)%N).
  cbn [b64decode]. cbv zeta.
  destruct (b64_index_char (N.shiftr n 18)) as [-> _].
  destruct (b64_index_char (N.shiftr n 12)) as [-> _].
  destruct padding_index as [-> ->].
  rewrite !N.shiftr_div_pow2.
  change (2 ^ 18)%N with 262144%N. change (2 ^ 12)%N with 4096%N.
  assert (H0 : (((((n / 262144) mod 64 * 64 + (n / 4096) mod 64) * 64 + 0) * 64 + 0)
                / 65536 = Byte.to_N a)%N) by (subst n; arith_N).
  rewrite H0, byte_of_to_N. reflexivity.
Qed.

Lemma b64decode_b64encode (l : list Byte.byte) : b64decode (b64encode l) = l.
Proof.
  induction l as [|a|a b|a b c l IH] using list_ind3.
  - reflexivity.
  - apply decode_one.
  - apply decode_two.
  - rewrite decode_full_group, IH. reflexivity.
Qed.

Lemma b64encode_length (l : list Byte.byte) :
  String.length (b64encode l) = (4 * ((length l + 2) / 3))%nat.
Proof.
  induction l as [|a|a b|a b c l IH] using list_ind3; try reflexivity.
  cbn [b64encode]. cbv zeta. cbn [String.length length]. rewrite IH.
  replace (S (S (S (length l))) + 2)%nat with (length l + 2 + 1 * 3)%nat by lia.
  rewrite Nat.div_add by discriminate. lia.
Qed.

(** X11.  The image [get_photo_data] returns can be read back.  When the
    file is found and downloads, the result is the prefix
    "data:image/jpeg;base64," followed by a text whose standard base64
    decoding is exactly the downloaded bytes; the text has four characters
    for every three bytes, padding included, and no other bytes encode to
    it. *)
Theorem photo_data_uri_reads_back (file : value) (e : env) (s : hstate)
    (path : string) (photo_bytes : list Byte.byte) :
  bot_get_file e file = Some path ->
  file_download e path = Some photo_bytes ->
  exists encoded,
    get_photo_data file e s =
      (Ret (Some ("data:image/jpeg;base64," +:+ encoded)),
       HState (user_data s) (trace s ++ [GetFile file; Download path])) /\
    b64decode encoded = photo_bytes /\
    String.length encoded = (4 * ((length photo_bytes + 2) / 3))%nat /\
    (forall other, b64encode other = encoded -> other = photo_bytes).
Proof.
  intros Hfile Hload. exists (b64encode photo_bytes).
  split; [|split; [apply b64decode_b64encode|split; [apply b64encode_length|]]].
  - rewrite get_photo_data_spec. unfold photo_image, photo_events.
    rewrite Hfile, Hload. reflexivity.
  - intros other Heq.
    rewrite <- (b64decode_b64encode other), Heq. apply b64decode_b64encode.
Qed.

Lemma photo_data_uri_reads_back_witness :
  exists encoded,
    get_photo_data (VStr "AgACAgQ") sunny (HState ∅ []) =
      (Ret (Some ("data:image/jpeg;base64," +:+ encoded)),
       HState ∅ [GetFile (VStr "AgACAgQ"); Download "photos/file_1.jpg"]) /\
    b64decode encoded = [Byte.x4d; Byte.x61; Byte.x6e] /\
    String.length encoded = 4%nat.
Proof.
  destruct (photo_data_uri_reads_back (VStr "AgACAgQ") sunny (HState ∅ [])
              "photos/file_1.jpg" [Byte.x4d; Byte.x61; Byte.x6e] eq_refl eq_refl)
    as (encoded & Hrun & Hback & Hlen & _).
  exists encoded. repeat split; assumption.
Defined.

(** ** The account commands *)

Lemma for_each_length {A B} (f : A -> M B) (l : list A) e s bs s' :
  for_each f l e s = (Ret bs, s') -> length bs = length l.
Proof.
  revert s bs s'. induction l as [|a l IH]; intros s bs s'; cbn [for_each].
  - intros H. inversion H. reflexivity.
  - unfold bind at 1. destruct (f a e s) as [[b|x] s1]; [|discriminate].
    unfold bind at 1. destruct (for_each f l e s1) as [[bs'|x] s2] eqn:Hrest; [|discriminate].
    intros H. inversion H. cbn. f_equal. eapply IH, Hrest.
Qed.

Lemma for_each_raises {A B} (f : A -> M B) (l : list A) (bad : A) e s :
  In bad l -> (forall s0, raises (fst (f bad e s0))) ->
  raises (fst (for_each f l e s)).
Proof.
  intros Hin Hbad. revert s. induction l as [|a l IH]; intros s; [contradiction|].
  cbn [for_each]. unfold bind at 1.
  destruct (f a e s) as [[b|x] s1] eqn:Ha; [|eexists; reflexivity].
  destruct Hin as [->|Hin].
  - destruct (Hbad s) as [x Hx]. rewrite Ha in Hx. discriminate.
  - unfold bind at 1. destruct (IH Hin s1) as [x Hx].
    destruct (for_each f l e s1) as [[bs|y] s2]; [discriminate|]. eexists; reflexivity.
Qed.

Lemma activity_line_needs_dict activity e s :
  is_dict activity = false -> raises (fst (activity_line activity e s)).
Proof.
  intros H. destruct activity; try discriminate; eexists; reflexivity.
Qed.

Lemma activity_line_of_dict fields e s :
  exists line, activity_line (VDict fields) e s = (Ret line, s).
Proof. eexists. reflexivity. Qed.

(** X12.  [format_recent_activity] looks at the first three activities
    only: what follows them, well formed or not, never changes the result.
    No activity gives "No recent activity"; otherwise there is one line per
    activity shown, three at most, an activity without any field reading
    "📝 Event: Product"; and if one of the first three is not an object the
    function raises. *)
Theorem recent_activity_shows_first_three (activities : list value) (e : env)
    (s : hstate) :
  format_recent_activity (VList activities) e s =
    format_recent_activity (VList (firstn 3 activities)) e s /\
  format_recent_activity (VList []) e s = (Ret "No recent activity", s) /\
  activity_line (VDict []) e s = (Ret "📝 Event: Product", s) /\
  (forall shown_text,
     fst (format_recent_activity (VList activities) e s) = Ret shown_text ->
     activities <> [] ->
     exists activity_lines,
       shown_text = join nl activity_lines /\
       length activity_lines = Nat.min 3 (length activities)) /\
  (forall activity,
     In activity (firstn 3 activities) -> is_dict activity = false ->
     raises (fst (format_recent_activity (VList activities) e s))).
Proof.
  split; [|split; [reflexivity|split; [reflexivity|split]]].
  - unfold format_recent_activity. cbn [truthy].
    destruct activities as [|a [|b [|c rest]]]; reflexivity.
  - intros shown_text Hret Hne.
    assert (Hrun : format_recent_activity (VList activities) e s =
      bind (for_each activity_line (firstn 3 activities))
        (fun activity_lines => ret (join nl activity_lines)) e s).
    { destruct activities as [|a rest]; [contradiction|]. reflexivity. }
    rewrite Hrun in Hret. unfold bind in Hret.
    destruct (for_each activity_line (firstn 3 activities) e s)
      as [[activity_lines|x] s1] eqn:Hlines; [|discriminate].
    inversion Hret. exists activity_lines. split; [reflexivity|].
    rewrite (for_each_length _ _ _ _ _ _ Hlines). apply length_firstn.
  - intros activity Hin Hd.
    assert (Hrun : format_recent_activity (VList activities) e s =
      bind (for_each activity_line (firstn 3 activities))
        (fun activity_lines => ret (join nl activity_lines)) e s).
    { destruct activities as [|a rest]; [destruct Hin|]. reflexivity. }
    rewrite Hrun. unfold bind.
    destruct (for_each_raises activity_line (firstn 3 activities) activity e s Hin
                (fun s0 => activity_line_needs_dict activity e s0 Hd)) as [x Hx].
    destruct (for_each activity_line (firstn 3 activities) e s) as [[ls|y] s1];
      [discriminate|]. eexists; reflexivity.
Qed.

Lemma append_assoc (a b c : string) : (a +:+ b) +:+ c = a +:+ b +:+ c.
Proof.
  induction a as [|ch a IH]; [reflexivity|].
  change (String ch ((a +:+ b) +:+ c) = String ch (a +:+ b +:+ c)).
  now rewrite IH.
Qed.

Lemma status_command_not_linked u e s info :
  check_user_status (pretty (effective_user u)) e s =
    (Ret info,
     HState (user_data s)
       (trace s ++ [Get (status_url e) (pretty (effective_user u))])) ->
  status_linked info = false ->
  status_command u e s =
    (if reply_ok e (length (List.filter is_reply (trace s)))
     then Ret tt else Raise TelegramError,
     HState (user_data s)
       (trace s ++
        [ Get (status_url e) (pretty (effective_user u));
          Reply (status_not_linked_message (pretty (effective_user u))) NoMarkup MARKDOWN
            (reply_ok e (length (List.filter is_reply (trace s)))) ])).
Proof.
  intros Hrun Hl. unfold status_command, bind at 1. rewrite Hrun, Hl.
  unfold bind, ret, reply_text. cbn [user_data trace].
  rewrite List.filter_app. cbn [List.filter is_reply]. rewrite app_nil_r.
  rewrite <- app_assoc. reflexivity.
Qed.

Lemma status_of_needs_user_and_stats fields e s :
  dict_lookup "user" fields = None \/ dict_lookup "stats" fields = None ->
  fst (status_of (VDict fields) e s) = Ret status_not_linked \/
  raises (fst (status_of (VDict fields) e s)).
Proof.
  intros Hmissing.
  assert (Hrun : status_of (VDict fields) e s =
    (if truthy (default VNone (dict_lookup "linked" fields)) then
       user <- getitem (VDict fields) "user" ;;
       user_name <- getitem user "name" ;;
       stats <- getitem (VDict fields) "stats" ;;
       tracked <- getitem stats "trackedProducts" ;;
       user <- getitem (VDict fields) "user" ;;
       linked_at <- getitem user "linkedAt" ;;
       activities <- dict_get (VDict fields) "recentActivity" (VList []) ;;
       activity <- format_recent_activity activities ;;
       ret {| status_linked := true;
              name := if truthy user_name then user_name else VStr "Unknown";
              tracked_count := tracked;
              linked_date := linked_at;
              recent_activity := activity |}
     else ret status_not_linked) e s) by reflexivity.
  rewrite Hrun. clear Hrun.
  destruct (truthy _); [right|left; reflexivity].
  unfold bind at 1. cbn [getitem].
  destruct (dict_lookup "user" fields) as [user|] eqn:Hu; [|eexists; reflexivity].
  destruct Hmissing as [Hm|Hm]; [discriminate|].
  cbn [ret]. unfold bind at 1.
  destruct (getitem user "name" e s) as [[user_name|x] s1]; [|eexists; reflexivity].
  unfold bind at 1. cbn [getitem]. rewrite Hm. eexists; reflexivity.
Qed.

(** X13.  /status does not tell a failure from an account that is not
    linked.  When the query fails, when the response is not linked, and when
    the response lacks the user or the stats object (linked or not), the
    command makes its one query and answers with the "Not Linked" text
    carrying the user's Telegram id; the error record's own texts are not
    shown. *)
Theorem status_failure_reads_as_not_linked (u : update) (e : env) (s : hstate) :
  let telegram_id := pretty (effective_user u) in
  (http_get e (status_url e) telegram_id = HttpRaise \/
   exists fields,
     http_get e (status_url e) telegram_id = HttpJson (VDict fields) /\
     (truthy (from_option id VNone (dict_lookup "linked" fields)) = false \/
      dict_lookup "user" fields = None \/ dict_lookup "stats" fields = None)) ->
  status_command u e s =
    (if reply_ok e (length (List.filter is_reply (trace s)))
     then Ret tt else Raise TelegramError,
     HState (user_data s)
       (trace s ++
        [ Get (status_url e) telegram_id;
          Reply (status_not_linked_message telegram_id) NoMarkup MARKDOWN
            (reply_ok e (length (List.filter is_reply (trace s)))) ])) /\
  contains (status_not_linked_message telegram_id)
    ("3. Enter your ID: `" +:+ telegram_id +:+ "`").
Proof.
  intros telegram_id Hcase. split.
  - eapply status_command_not_linked; [apply check_user_status_spec|].
    fold telegram_id.
    destruct Hcase as [->|(fields & -> & Hfields)]; [reflexivity|].
    destruct Hfields as [Hl|Hmissing].
    + unfold status_of, bind at 1. cbn [dict_get ret fst]. rewrite Hl. reflexivity.
    + destruct (status_of_needs_user_and_stats fields e (HState ∅ []) Hmissing)
        as [->|[x ->]]; reflexivity.
  - unfold status_not_linked_message, contains.
    exists (nl +:+ "❌ *Account Status: Not Linked*" +:+ nl +:+ nl +:+
            "Your Telegram account is not yet connected to the Life app." +:+ nl +:+ nl +:+
            "*To link your account:*" +:+ nl +:+
            "1. Use /link for instructions" +:+ nl +:+
            "2. Go to Life app → Settings → Telegram" +:+ nl).
    exists (nl +:+ nl +:+ "Need help? Check /help for more info!" +:+ nl +:+ "            ").
    rewrite !append_assoc. reflexivity.
Qed.

Lemma status_failure_reads_as_not_linked_witness :
  status_command (from_user (Command "status" "status")) half_linked (HState ∅ []) =
    (Ret tt,
     HState ∅
       [ Get "https://localhost:3000/api/telegram/status" "42";
         Reply (status_not_linked_message "42") NoMarkup MARKDOWN true ]).
Proof.
  apply (status_failure_reads_as_not_linked
           (from_user (Command "status" "status")) half_linked (HState ∅ [])).
  right.
  exists [ ("linked", VBool true);
           ("user", VDict [("name", VStr "Kavish"); ("linkedAt", VStr "2025-08-01")]) ].
  split; [reflexivity|]. right. right. reflexivity.
Defined.

(** X17.  Unlike /products, /status cannot fail on what the backend sends:
    whatever the response, the command makes its one query and sends one
    Markdown message, and it raises only if that message is refused. *)
Theorem status_command_always_answers (u : update) (e : env) (s : hstate) :
  exists status_message,
    status_command u e s =
      (if reply_ok e (length (List.filter is_reply (trace s)))
       then Ret tt else Raise TelegramError,
       HState (user_data s)
         (trace s ++
          [ Get (status_url e) (pretty (effective_user u));
            Reply status_message NoMarkup MARKDOWN
              (reply_ok e (length (List.filter is_reply (trace s)))) ])).
Proof.
  unfold status_command. cbv zeta. unfold bind at 1.
  rewrite check_user_status_spec.
  set (info := match http_get e (status_url e) (pretty (effective_user u)) with
               | HttpRaise => status_error
               | HttpJson data =>
                   match fst (status_of data e (HState ∅ [])) with
                   | Ret info => info
                   | Raise _ => status_error
                   end
               end).
  destruct (status_linked info).
  - eexists. unfold status_linked_message, str, ask.
    unfold bind, ret, reply_text. cbn [user_data trace].
    rewrite List.filter_app. cbn [List.filter is_reply]. rewrite app_nil_r.
    rewrite <- app_assoc. reflexivity.
  - eexists. unfold bind, ret, reply_text. cbn [user_data trace].
    rewrite List.filter_app. cbn [List.filter is_reply]. rewrite app_nil_r.
    rewrite <- app_assoc. reflexivity.
Qed.

(** ** [products_command] *)

Lemma pure_product_line p : pure (product_line p).
Proof. unfold product_line. pure_steps. Qed.

Lemma product_line_of_well_formed p e s :
  well_formed_product p -> exists line, product_line p e s = (Ret line, s).
Proof.
  intros (fields & product_name & score & -> & Hn & Hs).
  unfold product_line, bind at 1. cbn [getitem]. rewrite Hn. cbn [ret].
  unfold bind at 1, str at 1, bind at 1, ask, ret.
  unfold bind at 1. cbn [getitem]. rewrite Hs.
  eexists. reflexivity.
Qed.

Lemma product_line_needs_fields p e s :
  ~ well_formed_product p -> raises (fst (product_line p e s)).
Proof.
  intros Hbad. unfold product_line, bind at 1.
  destruct p as [| | | | | |fields]; try (eexists; reflexivity).
  cbn [getitem].
  destruct (dict_lookup "name" fields) as [product_name|] eqn:Hn;
    [|eexists; reflexivity].
  cbn [ret]. unfold bind at 1, str at 1, bind at 1, ask, ret.
  unfold bind at 1. cbn [getitem].
  destruct (dict_lookup "ecoScore" fields) as [score|] eqn:Hs;
    [|eexists; reflexivity].
  exfalso. apply Hbad. exists fields, product_name, score. auto.
Qed.

Lemma for_each_well_formed l e s :
  Forall well_formed_product l ->
  exists product_lines,
    for_each product_line l e s = (Ret product_lines, s) /\
    length product_lines = length l.
Proof.
  induction 1 as [|p l Hp Hl IH].
  - exists []. split; reflexivity.
  - destruct (product_line_of_well_formed p e s Hp) as [line Hline].
    destruct IH as (product_lines & Hrest & Hlen).
    exists (line :: product_lines). split.
    + cbn [for_each]. unfold bind at 1. rewrite Hline.
      unfold bind at 1. rewrite Hrest. reflexivity.
    + cbn. now rewrite Hlen.
Qed.

Lemma products_of_listing fields items stats_fields score e s :
  truthy (default VNone (dict_lookup "linked" fields)) = true ->
  dict_lookup "products" fields = Some (VList items) ->
  dict_lookup "stats" fields = Some (VDict stats_fields) ->
  dict_lookup "avgEcoScore" stats_fields = Some score ->
  products_of (VDict fields) e s =
    (Ret {| products_linked := true;
            products := VList (firstn 10 items);
            avg_score := score |}, s).
Proof.
  intros Hl Hp Hs Ha. unfold products_of, bind at 1. cbn [dict_get ret].
  rewrite Hl. unfold bind at 1. cbn [getitem]. rewrite Hp. cbn [ret].
  unfold bind at 1. cbn [slice_to ret].
  unfold bind at 1. cbn [getitem]. rewrite Hs. cbn [ret].
  unfold bind at 1. cbn [getitem]. rewrite Ha. reflexivity.
Qed.

Lemma products_command_listing u e s fields items stats_fields score :
  http_get e (products_url e) (pretty (effective_user u)) = HttpJson (VDict fields) ->
  truthy (default VNone (dict_lookup "linked" fields)) = true ->
  dict_lookup "products" fields = Some (VList items) ->
  dict_lookup "stats" fields = Some (VDict stats_fields) ->
  dict_lookup "avgEcoScore" stats_fields = Some score ->
  products_command u e s =
    show_products
      {| products_linked := true;
         products := VList (firstn 10 items);
         avg_score := score |} e
      (HState (user_data s)
         (trace s ++ [Get (products_url e) (pretty (effective_user u))])).
Proof.
  intros Hget Hl Hp Hs Ha. unfold products_command, bind.
  rewrite get_user_products_spec, Hget.
  rewrite (products_of_listing fields items stats_fields score e _ Hl Hp Hs Ha).
  reflexivity.
Qed.

(** X14.  [products_command] reads the entries of the listing outside any
    [try]: when one of the first ten products is not an object with a name
    and an eco score, the command raises after its one query and sends no
    message of its own (the dispatcher's [error_handler] is what the user
    hears from). *)
Theorem malformed_product_escapes_products_command (u : update) (e : env)
    (s : hstate) (fields : list (string * value)) (items : list value)
    (stats_fields : list (string * value)) (score bad : value) :
  let telegram_id := pretty (effective_user u) in
  http_get e (products_url e) telegram_id = HttpJson (VDict fields) ->
  truthy (default VNone (dict_lookup "linked" fields)) = true ->
  dict_lookup "products" fields = Some (VList items) ->
  dict_lookup "stats" fields = Some (VDict stats_fields) ->
  dict_lookup "avgEcoScore" stats_fields = Some score ->
  In bad (firstn 10 items) ->
  ~ well_formed_product bad ->
  exists x,
    products_command u e s =
      (Raise x,
       HState (user_data s) (trace s ++ [Get (products_url e) telegram_id])).
Proof.
  intros telegram_id Hget Hl Hp Hs Ha Hin Hbad.
  rewrite (products_command_listing u e s fields items stats_fields score
             Hget Hl Hp Hs Ha).
  fold telegram_id. unfold show_products. cbn [products_linked negb products avg_score].
  destruct (firstn 10 items) as [|p shown_part] eqn:Hshown; [destruct Hin|].
  cbn [truthy elements]. unfold bind at 1.
  rewrite (pure_for_each product_line (p :: shown_part) pure_product_line).
  destruct (for_each_raises product_line (p :: shown_part) bad e (HState ∅ []) Hin
              (fun s0 => product_line_needs_fields bad e s0 Hbad)) as [x Hx].
  rewrite Hx. exists x. reflexivity.
Qed.

Lemma malformed_product_escapes_products_command_witness :
  exists x,
    products_command (from_user (Command "products" "products")) nameless (HState ∅ []) =
      (Raise x, HState ∅ [Get "https://localhost:3000/api/telegram/products" "42"]).
Proof.
  apply (malformed_product_escapes_products_command
           (from_user (Command "products" "products")) nameless (HState ∅ [])
           nameless_fields [product "Lamp" 71; VDict [("ecoScore", VInt 64)]]
           [("avgEcoScore", VInt 70)] (VInt 70) (VDict [("ecoScore", VInt 64)]));
    try reflexivity.
  - right. left. reflexivity.
  - intros (fields & product_name & score & Hv & Hn & _).
    inversion Hv; subst. discriminate.
Defined.

(** X15.  The "Total Products" figure of /products counts the lines shown,
    not the products tracked: with well-formed entries among the first ten,
    the command sends one message with one line per shown product and a
    total equal to the smaller of ten and the length of the list the backend
    returned, whatever follows the tenth entry. *)
Theorem products_total_counts_the_lines_shown (u : update) (e : env)
    (s : hstate) (fields : list (string * value)) (items : list value)
    (stats_fields : list (string * value)) (score : value) :
  let telegram_id := pretty (effective_user u) in
  let ok := reply_ok e (length (List.filter is_reply (trace s))) in
  http_get e (products_url e) telegram_id = HttpJson (VDict fields) ->
  truthy (default VNone (dict_lookup "linked" fields)) = true ->
  dict_lookup "products" fields = Some (VList items) ->
  dict_lookup "stats" fields = Some (VDict stats_fields) ->
  dict_lookup "avgEcoScore" stats_fields = Some score ->
  items <> [] ->
  Forall well_formed_product (firstn 10 items) ->
  exists product_lines,
    length product_lines = Nat.min 10 (length items) /\
    products_command u e s =
      (if ok then Ret tt else Raise TelegramError,
       HState (user_data s)
         (trace s ++
          [ Get (products_url e) telegram_id;
            Reply
              (products_message (join nl product_lines)
                 (Z.of_nat (Nat.min 10 (length items)))
                 (py_str (container_repr e) score))
              NoMarkup MARKDOWN ok ])).
Proof.
  intros telegram_id ok Hget Hl Hp Hs Ha Hne Hwf.
  rewrite (products_command_listing u e s fields items stats_fields score
             Hget Hl Hp Hs Ha).
  fold telegram_id. unfold show_products. cbn [products_linked negb products avg_score].
  assert (Htruthy : truthy (VList (firstn 10 items)) = true)
    by (destruct items; [contradiction|reflexivity]).
  rewrite Htruthy. cbn [elements].
  destruct (for_each_well_formed (firstn 10 items) e
              (HState (user_data s) (trace s ++ [Get (products_url e) telegram_id]))
              Hwf) as (product_lines & Hlines & Hlen).
  exists product_lines. split; [rewrite Hlen; apply length_firstn|].
  unfold bind at 1. rewrite Hlines.
  unfold bind at 1, str at 1, bind at 1, ask, ret.
  unfold reply_text. cbn [user_data trace].
  rewrite List.filter_app. cbn [List.filter is_reply]. rewrite app_nil_r.
  unfold py_len. cbn [elements]. rewrite length_firstn.
  rewrite <- app_assoc. reflexivity.
Qed.

Lemma products_total_counts_the_lines_shown_witness :
  exists product_lines,
    length product_lines = 10%nat /\
    products_command (from_user (Command "products" "products")) sunny (HState ∅ []) =
      (Ret tt,
       HState ∅
         [ Get "https://localhost:3000/api/telegram/products" "42";
           Reply (products_message (join nl product_lines) 10 "70")
             NoMarkup MARKDOWN true ]).
Proof.
  apply (products_total_counts_the_lines_shown
           (from_user (Command "products" "products")) sunny (HState ∅ [])
           listing_fields catalogue [("avgEcoScore", VInt 70)] (VInt 70));
    try reflexivity.
  - discriminate.
  - repeat constructor;
      eexists _, _, _; (split; [reflexivity|split; reflexivity]).
Defined.

(** ** The keyboards *)

(** X16.  Every button the bot offers is understood by
    [process_lifecycle_event].  A button of the photo keyboard is either one
    of the eight labels, replaced by its sentence (never sent as it is), or
    "Custom Description", which asks for the text; a button of the text-only
    keyboard either asks for the photo or submits the stored text; and the
    list the description is tested against holds exactly the keys of the
    mapping, in order. *)
Theorem every_button_is_understood (stored : gmap string value) :
  Forall
    (fun label =>
       (exists sentence,
          In (label, sentence) description_mapping /\
          normalize stored (VStr label) = Submit (VStr sentence) /\
          sentence <> label) \/
       normalize stored (VStr label) =
         Prompt "Please describe what happened with your product:"
           WAITING_FOR_DESCRIPTION)
    (concat photo_keyboard) /\
  Forall
    (fun label =>
       normalize stored (VStr label) =
         Prompt "Perfect! Please send a photo of your product:" WAITING_FOR_IMAGE \/
       normalize stored (VStr label) =
         Submit (default (VStr label) (stored !! "text_description")))
    (concat text_only_keyboard) /\
  map fst description_mapping = quick_reply_labels.
Proof.
  split; [|split; [|reflexivity]].
  - repeat (apply List.Forall_cons; [|]); try apply List.Forall_nil;
      first
        [ right; reflexivity
        | left; eexists; split;
          [ cbn [In description_mapping]; repeat first [left; reflexivity | right] |
            split; [reflexivity|discriminate] ] ].
  - repeat (apply List.Forall_cons; [|]); try apply List.Forall_nil;
      first [left; reflexivity | right; reflexivity].
Qed.
